(** * website-server: the shipping estimator and the request handlers of server.js

    A shallow embedding of [server.js].  The estimator is given twice.  In
    exact arithmetic JavaScript Numbers are read as real numbers ([R]):
    [+], [-], [*], [/] and the comparisons are the exact ones, [Math.sin],
    [Math.cos] and [Math.sqrt] are the real functions, and [Math.round] and
    [Math.atan2] are defined below from their ECMAScript descriptions; this
    reading carries the properties that do not depend on rounding.  In
    [Binary64] the same lines are written over binary64 floats, as the engine
    runs them, and evaluated where rounding decides the answer.  The awaited
    collaborators (the geocoding service, the payment processor, the document
    store, the console) are events of a small free monad, answered by an
    explicit [World]. *)

From Stdlib Require Import Reals Lra Lia ZArith.
From Stdlib Require Floats.
From stdpp Require Import base option strings gmap pretty.

#[local] Open Scope R_scope.

(** ** The [Math] object *)

Module Math.

Definition PI : R := Rtrigo1.PI.
Definition sin : R -> R := Rtrigo_def.sin.
Definition cos : R -> R := Rtrigo_def.cos.
Definition sqrt : R -> R := R_sqrt.sqrt.

(** [Math.round(x)]: the integer closest to [x], the one closer to
    +infinity when two are equally close, that is floor(x + 1/2). *)
Definition round_Z (x : R) : Z := Zfloor (x + / 2).
Definition round (x : R) : R := IZR (round_Z x).

(** [Math.atan2(y, x)]: the angle of the point (x, y), in (-PI, PI]. *)
Definition atan2 (y x : R) : R :=
  if Rlt_dec 0 x then atan (y / x)
  else if Rlt_dec x 0 then
    (if Rle_dec 0 y then atan (y / x) + Rtrigo1.PI else atan (y / x) - Rtrigo1.PI)
  else if Rlt_dec 0 y then Rtrigo1.PI / 2
  else if Rlt_dec y 0 then - (Rtrigo1.PI / 2)
  else 0.

End Math.

(** ** Configuration: lines 18-31 *)

Module Store.
Record Location := {
  address : string;
  lat : R;
  lng : R
}.
End Store.

(** [process.env], as far as the server reads it.  [STORE_LAT] and
    [STORE_LNG] are held after [parseFloat]; a setting that is no number, for
    which [parseFloat] gives [NaN], is outside this record. *)
Record ProcessEnv := {
  STORE_ADDRESS : option string;
  STORE_LAT : option R;
  STORE_LNG : option R;
  GOOGLE_MAPS_API_KEY : option string
}.

Definition STORE_LOCATION (env : ProcessEnv) : Store.Location := {|
  Store.address := default "339873 E US 62 Meeker OK 74855"%string (STORE_ADDRESS env);
  Store.lat := default 35.8456 (STORE_LAT env);
  Store.lng := default (-103.3181) (STORE_LNG env)
|}.

Record ShippingRates := {
  baseRate : R;
  costPerMile : R;
  maxRate : R;
  freeShippingThreshold : R
}.

Definition SHIPPING_RATES : ShippingRates := {|
  baseRate := 5.00;
  costPerMile := 0.50;
  maxRate := 50.00;
  freeShippingThreshold := 150.00
|}.

(** ** calculateDistance: lines 42-52 *)

Definition calculateDistance (lat1 lon1 lat2 lon2 : R) : R :=
  let R := 3959 in
  let dLat := (lat2 - lat1) * Math.PI / 180 in
  let dLon := (lon2 - lon1) * Math.PI / 180 in
  let a :=
    Math.sin (dLat / 2) * Math.sin (dLat / 2) +
    Math.cos (lat1 * Math.PI / 180) * Math.cos (lat2 * Math.PI / 180) *
    Math.sin (dLon / 2) * Math.sin (dLon / 2) in
  let c := 2 * Math.atan2 (Math.sqrt a) (Math.sqrt (1 - a)) in
  R * c.

(** ** calculateShippingCost: lines 78-93 *)

(** [subtotal >= threshold] for a subtotal that is a Number or [undefined]:
    [undefined] converts to [NaN], and every comparison with [NaN] is false. *)
Definition number_ge (subtotal : option R) (threshold : R) : bool :=
  match subtotal with
  | Some s => if Rge_dec s threshold then true else false
  | None => false
  end.

Definition calculateShippingCost (distance : R) (subtotal : option R) : R :=
  if number_ge subtotal (freeShippingThreshold SHIPPING_RATES) then 0
  else
    let cost := baseRate SHIPPING_RATES + distance * costPerMile SHIPPING_RATES in
    let cost := if Rgt_dec cost (maxRate SHIPPING_RATES) then maxRate SHIPPING_RATES else cost in
    Math.round (cost * 100) / 100.

(** ** Values that cross the HTTP boundary *)

Inductive JSON :=
| JString (s : string)
| JNumber (x : R)
| JBool (b : bool).

(** What [res.status(n).json({...})] sends: the status and the fields of the
    object literal, in the order they are written. *)
Record Response := {
  status : nat;
  body : list (string * JSON)
}.

Definition json (fields : list (string * JSON)) : Response :=
  {| status := 200; body := fields |}.

Definition status_json (code : nat) (fields : list (string * JSON)) : Response :=
  {| status := code; body := fields |}.

(** The value of a key of an object literal. *)
Fixpoint field (key : string) (fields : list (string * JSON)) : option JSON :=
  match fields with
  | [] => None
  | (k, v) :: rest => if String.eqb k key then Some v else field key rest
  end.

(** A string field of a request body: absent ([undefined]) or a string.
    [!s] holds for [undefined] and for the empty string. *)
Definition truthy (s : option string) : bool :=
  match s with
  | Some s => negb (String.eqb s "")
  | None => false
  end.

(** A Number field of a request body: [!x] holds for [undefined] and for 0. *)
Definition truthy_number (x : option R) : bool :=
  match x with
  | Some x => if Req_dec_T x 0 then false else true
  | None => false
  end.

(** [${s}] in a template literal. *)
Definition text (s : option string) : string := default "undefined"%string s.

(** [s || d] for a string field. *)
Definition or_else (s : option string) (d : string) : string :=
  if truthy s then text s else d.

(** What an awaited promise or a constructor call gives: a value, or an
    exception with its [message]. *)
Inductive Outcome (A : Type) :=
| Returned (a : A)
| Threw (message : string).
Arguments Returned {A} a.
Arguments Threw {A} message.

Module Geo.
(** [{ lat, lng }] *)
Record Coords := {
  lat : R;
  lng : R
}.
End Geo.

Module Square.
Record Money := {
  amount : R;
  currency : string
}.

Record CreatePaymentRequest := {
  sourceId : string;
  idempotencyKey : string;
  amountMoney : Money;
  customerId : option string;
  receiptUrl : bool;
  statementDescriptionIdentifier : string
}.

(** [payment.result.payment] *)
Record Payment := {
  id : string;
  status : string
}.
End Square.

Module ShippingRequest.
(** The JSON body with its address fields strings or absent and its subtotal
    a number or absent; other JSON values are outside this record. *)
Record Body := {
  address : option string;
  city : option string;
  state : option string;
  zipCode : option string;
  country : option string;
  subtotal : option R
}.
End ShippingRequest.

Module PaymentRequest.
Record Body := {
  sourceId : option string;
  amount : option R;
  currency : option string;
  orderId : option string;
  customerEmail : option string;
  customerName : option string
}.
End PaymentRequest.

Module ProductRequest.
(** The body of PUT /api/products/:id; [price] is a JSON number when it is
    given, which [parseFloat] gives back. *)
Record Body := {
  name : option string;
  description : option string;
  price : option R;
  emoji : option string
}.
End ProductRequest.

(** A value stored in a document of the store. *)
Inductive Stored :=
| SString (s : string)
| SNumber (x : R)
| SDate (t : Z).

Inductive Collection := products | orders | settings.

#[global] Instance Collection_eq_dec : EqDecision Collection.
Proof. solve_decision. Defined.

Inductive Level := warn | error.

(** ** The server and its collaborators *)

Section Server.

(** [ObjectId] of the mongodb driver, which is not part of this repository:
    [ObjectId_parse s] is the identifier [new ObjectId(s)] constructs, [None]
    when the constructor throws; [ObjectId.isValid(s)] tells the two apart. *)
Context {ObjectId : Type} `{Countable ObjectId}.
Variable ObjectId_parse : string -> option ObjectId.

Definition ObjectId_isValid (s : string) : bool :=
  match ObjectId_parse s with
  | Some _ => true
  | None => false
  end.

Definition new_ObjectId (s : string) : Outcome ObjectId :=
  match ObjectId_parse s with
  | Some oid => Returned oid
  | None => Threw "input must be a 24 character hex string, 12 byte Uint8Array, or an integer"
  end.

(** A document of a collection, without its [_id]: a finite map from field
    names to values. *)
Definition Document : Type := gmap string Stored.

(** The calls that leave the handler.  The index is the type of the answer;
    an awaited call answers with an [Outcome]. *)
Inductive Event : Type -> Type :=
| console (level : Level) (args : list string) : Event unit
| axios_get (url : string) (address key : string) : Event (Outcome (list Geo.Coords))
| createPayment (request : Square.CreatePaymentRequest) : Event (Outcome Square.Payment)
| deleteOne (c : Collection) (_id : ObjectId) : Event (Outcome nat)
| updateOne (c : Collection) (_id : ObjectId) (set : Document) : Event (Outcome nat)
| new_Date : Event Z.

(** A handler: a value, or a call and what to do with its answer. *)
Inductive Prog (A : Type) : Type :=
| Ret (a : A)
| Vis {X : Type} (e : Event X) (k : X -> Prog A).
Arguments Ret {A} a.
Arguments Vis {A X} e k.

Fixpoint bind {A B : Type} (m : Prog A) (k : A -> Prog B) : Prog B :=
  match m with
  | Ret a => k a
  | Vis e h => Vis e (fun x => bind (h x) k)
  end.

Definition call {X : Type} (e : Event X) : Prog X := Vis e Ret.

#[local] Instance Prog_ret : MRet Prog := @Ret.
#[local] Instance Prog_bind : MBind Prog := fun A B k m => bind m k.

(** [try { ... }] around code that may throw: the rest of the block runs only
    on a value. *)
Definition andThen {A B : Type} (m : Prog (Outcome A)) (k : A -> Prog (Outcome B))
  : Prog (Outcome B) :=
  r ← m;
  match r with
  | Returned a => k a
  | Threw message => Ret (Threw message)
  end.

(** [try { block } catch (error) { handler }] *)
Definition try_catch {A : Type} (block : Prog (Outcome A)) (handler : string -> Prog A)
  : Prog A :=
  r ← block;
  match r with
  | Returned a => Ret a
  | Threw message => handler message
  end.

(** [return value;] inside the block. *)
Definition done_with {A : Type} (a : A) : Prog (Outcome A) := Ret (Returned a).

(** ** geocodeAddress: lines 55-75 *)

Definition geocodeAddress (env : ProcessEnv) (address : string) : Prog (option Geo.Coords) :=
  try_catch
    (if negb (truthy (GOOGLE_MAPS_API_KEY env)) then
       call (console warn ["Google Maps API Key not set, using estimated coordinates"%string]);;
       done_with (Some {| Geo.lat := 35.0; Geo.lng := -97.0 |})
     else
       andThen
         (call (axios_get "https://maps.googleapis.com/maps/api/geocode/json"
                  address (text (GOOGLE_MAPS_API_KEY env))))
         (fun results =>
            match results with
            | location :: _ => done_with (Some location)
            | [] => done_with None
            end))
    (fun message =>
       call (console error ["Geocoding error:"%string; message]);;
       Ret None).

(** ** The collection handles: lines 98-101 *)

(** [productsCollection], [ordersCollection] and [settingsCollection] are
    [undefined] until [connectMongoDB] has assigned them. *)
Record Globals := {
  productsCollection : option Collection;
  ordersCollection : option Collection;
  settingsCollection : option Collection
}.

Definition not_connected : Globals := {|
  productsCollection := None;
  ordersCollection := None;
  settingsCollection := None
|}.

(** After lines 487-490 of [connectMongoDB]. *)
Definition connected : Globals := {|
  productsCollection := Some products;
  ordersCollection := Some orders;
  settingsCollection := Some settings
|}.

(** ** DELETE /api/products/:id: lines 156-177 *)

Definition delete_api_products_id (g : Globals) (id : string) : Prog Response :=
  try_catch
    (match productsCollection g with
     | None => done_with (status_json 503 [("error", JString "Database not connected")]%string)
     | Some collection =>
       if negb (ObjectId_isValid id) then
         done_with (status_json 400 [("error", JString "Invalid product ID")]%string)
       else
         andThen (Ret (new_ObjectId id)) (fun _id =>
         andThen (call (deleteOne collection _id)) (fun deletedCount =>
         if Nat.eqb deletedCount 0 then
           done_with (status_json 404 [("error", JString "Product not found")]%string)
         else
           done_with (json [("message", JString "Product deleted successfully")]%string)))
     end)
    (fun message => Ret (status_json 500 [("error"%string, JString message)])).

(** ** POST /api/shipping/calculate: lines 353-389 *)

(** [String(n)] for an integral Number [n] below 10^21: its decimal digits. *)
Definition integer_text (n : Z) : string := pretty n.

(** The template literal of line 362. *)
Definition fullAddress (req : ShippingRequest.Body) : string :=
  (text (ShippingRequest.address req) ++ ", " ++ text (ShippingRequest.city req) ++ ", "
    ++ text (ShippingRequest.state req) ++ " " ++ text (ShippingRequest.zipCode req) ++ ", "
    ++ or_else (ShippingRequest.country req) "USA")%string.

(** Lines 369-384: the distance from the store, the cost, and the object
    [res.json] sends. *)
Definition quote (env : ProcessEnv) (coords : Geo.Coords) (subtotal : option R) : Response :=
  let distance :=
    calculateDistance
      (Store.lat (STORE_LOCATION env))
      (Store.lng (STORE_LOCATION env))
      (Geo.lat coords)
      (Geo.lng coords) in
  let shippingCost := calculateShippingCost distance subtotal in
  json [
    ("distance", JNumber (Math.round (distance * 10) / 10));
    ("shippingCost", JNumber shippingCost);
    ("message", JString
       (if Req_dec_T shippingCost 0 then "Free shipping!"
        else "Shipping for " ++ integer_text (Math.round_Z distance) ++ " miles"))
  ]%string.

Definition post_api_shipping_calculate (env : ProcessEnv) (req : ShippingRequest.Body)
  : Prog Response :=
  let address := ShippingRequest.address req in
  let city := ShippingRequest.city req in
  let state := ShippingRequest.state req in
  let zipCode := ShippingRequest.zipCode req in
  let subtotal := ShippingRequest.subtotal req in
  try_catch
    (if negb (truthy address) || negb (truthy city) || negb (truthy state)
        || negb (truthy zipCode) then
       done_with (status_json 400 [("error", JString "Incomplete shipping address")]%string)
     else
       let fullAddress := fullAddress req in
       coords ← geocodeAddress env fullAddress;
       match coords with
       | None =>
         done_with (status_json 400 [("error", JString "Unable to validate address")]%string)
       | Some coords => done_with (quote env coords subtotal)
       end)
    (fun message =>
       call (console error ["Shipping calculation error:"%string; message]);;
       Ret (status_json 500 [("error"%string, JString message)])).

(** ** POST /api/payments/square: lines 392-449 *)

(** The argument of [createPayment], lines 402-412.  [amount], [sourceId]
    and [orderId] are truthy where it is built; the amount in cents is
    rounded in exact arithmetic. *)
Definition payment_request (req : PaymentRequest.Body) : Square.CreatePaymentRequest := {|
  Square.sourceId := text (PaymentRequest.sourceId req);
  Square.idempotencyKey := text (PaymentRequest.orderId req);
  Square.amountMoney := {|
    Square.amount := Math.round (default 0 (PaymentRequest.amount req) * 100);
    Square.currency := or_else (PaymentRequest.currency req) "USD"
  |};
  Square.customerId := PaymentRequest.customerEmail req;
  Square.receiptUrl := true;
  Square.statementDescriptionIdentifier := "LayerMonster"
|}.

(** The test of line 414. *)
Definition completed (payment : Square.Payment) : bool :=
  String.eqb (Square.status payment) "COMPLETED"
  || String.eqb (Square.status payment) "APPROVED".

Definition post_api_payments_square (g : Globals) (req : PaymentRequest.Body)
  : Prog Response :=
  let sourceId := PaymentRequest.sourceId req in
  let amount := PaymentRequest.amount req in
  let orderId := PaymentRequest.orderId req in
  try_catch
    (if negb (truthy sourceId) || negb (truthy_number amount) || negb (truthy orderId) then
       done_with (status_json 400 [("error", JString "Missing required payment fields")]%string)
     else
       andThen (call (createPayment (payment_request req))) (fun payment =>
       if completed payment then
         andThen
           (match ordersCollection g with
            | Some collection =>
              andThen (Ret (new_ObjectId (text orderId))) (fun _id =>
              now ← call new_Date;
              andThen
                (call (updateOne collection _id
                   (<["paymentStatus" := SString "completed"]>
                    (<["paymentId" := SString (Square.id payment)]>
                     (<["paymentMethod" := SString "square"]>
                      (<["updatedAt" := SDate now]> ∅))))%string))
                (fun updateResult => done_with tt))
            | None => done_with tt
            end)
           (fun _ =>
              done_with (json [
                ("success", JBool true);
                ("paymentId", JString (Square.id payment));
                ("status", JString (Square.status payment));
                ("message", JString "Payment processed successfully")
              ]%string))
       else
         done_with (status_json 400 [
           ("success", JBool false);
           ("message", JString ("Payment " ++ Square.status payment))
         ]%string)))
    (fun message =>
       call (console error ["Payment error:"%string; message]);;
       Ret (status_json 500 [
         ("success", JBool false);
         ("error", JString (if String.eqb message "" then "Payment processing failed" else message))
       ]%string)).

(** ** PUT /api/products/:id: lines 180-211 *)

(** Lines 192-196: the fields the request changes. *)
Definition updateData (req : ProductRequest.Body) : Document :=
  let name := ProductRequest.name req in
  let description := ProductRequest.description req in
  let price := ProductRequest.price req in
  let emoji := ProductRequest.emoji req in
  let updateData : Document := ∅ in
  let updateData :=
    if truthy name then <["name"%string := SString (text name)]> updateData else updateData in
  let updateData :=
    if truthy description then <["description"%string := SString (text description)]> updateData
    else updateData in
  let updateData :=
    match price with
    | Some price => <["price"%string := SNumber price]> updateData
    | None => updateData
    end in
  let updateData :=
    if truthy emoji then <["emoji"%string := SString (text emoji)]> updateData else updateData in
  updateData.

Definition put_api_products_id (g : Globals) (id : string) (req : ProductRequest.Body)
  : Prog Response :=
  try_catch
    (match productsCollection g with
     | None => done_with (status_json 503 [("error", JString "Database not connected")]%string)
     | Some collection =>
       if negb (ObjectId_isValid id) then
         done_with (status_json 400 [("error", JString "Invalid product ID")]%string)
       else
         let updateData := updateData req in
         andThen (Ret (new_ObjectId id)) (fun _id =>
         andThen (call (updateOne collection _id updateData)) (fun matchedCount =>
         if Nat.eqb matchedCount 0 then
           done_with (status_json 404 [("error", JString "Product not found")]%string)
         else
           done_with (json [("message", JString "Product updated successfully")]%string)))
     end)
    (fun message => Ret (status_json 500 [("error"%string, JString message)])).

(** ** PUT /api/orders/:id/status: lines 264-289 *)

(** [status] is the [status] field of the body, a JSON string. *)
Definition put_api_orders_id_status (g : Globals) (id : string) (status : string)
  : Prog Response :=
  try_catch
    (match ordersCollection g with
     | None => done_with (status_json 503 [("error", JString "Database not connected")]%string)
     | Some collection =>
       if negb (ObjectId_isValid id) then
         done_with (status_json 400 [("error", JString "Invalid order ID")]%string)
       else
         andThen (Ret (new_ObjectId id)) (fun _id =>
         now ← call new_Date;
         andThen
           (call (updateOne collection _id
              (<["status" := SString status]> (<["updatedAt" := SDate now]> ∅))%string))
           (fun matchedCount =>
            if Nat.eqb matchedCount 0 then
              done_with (status_json 404 [("error", JString "Order not found")]%string)
            else
              done_with (json [("message", JString "Order status updated")]%string)))
     end)
    (fun message => Ret (status_json 500 [("error"%string, JString message)])).

(** ** DELETE /api/orders/:id: lines 292-313 *)

Definition delete_api_orders_id (g : Globals) (id : string) : Prog Response :=
  try_catch
    (match ordersCollection g with
     | None => done_with (status_json 503 [("error", JString "Database not connected")]%string)
     | Some collection =>
       if negb (ObjectId_isValid id) then
         done_with (status_json 400 [("error", JString "Invalid order ID")]%string)
       else
         andThen (Ret (new_ObjectId id)) (fun _id =>
         andThen (call (deleteOne collection _id)) (fun deletedCount =>
         if Nat.eqb deletedCount 0 then
           done_with (status_json 404 [("error", JString "Order not found")]%string)
         else
           done_with (json [("message", JString "Order deleted")]%string)))
     end)
    (fun message => Ret (status_json 500 [("error"%string, JString message)])).

(** ** The world the handlers run in *)

(** What the collaborators answer, and the state they keep.  The geocoding
    service and the payment processor may answer with an exception; the store
    answers every operation from the documents it holds. *)
Record World := {
  geocoding : string -> string -> Outcome (list Geo.Coords);
  square : Square.CreatePaymentRequest -> Outcome Square.Payment;
  documents : Collection -> gmap ObjectId Document;
  clock : Z;
  output : list (Level * list string)
}.

Definition set_documents (c : Collection) (m : gmap ObjectId Document) (w : World) : World := {|
  geocoding := geocoding w;
  square := square w;
  documents := fun c' => if decide (c' = c) then m else documents w c';
  clock := clock w;
  output := output w
|}.

Definition print (level : Level) (args : list string) (w : World) : World := {|
  geocoding := geocoding w;
  square := square w;
  documents := documents w;
  clock := clock w;
  output := output w ++ [(level, args)]
|}.

(** [deleteOne({ _id })] removes the document with that [_id], if there is
    one, and reports how many it removed. *)
Definition store_deleteOne (c : Collection) (_id : ObjectId) (w : World) : nat * World :=
  match documents w c !! _id with
  | Some _ => (1%nat, set_documents c (delete _id (documents w c)) w)
  | None => (0%nat, w)
  end.

(** [updateOne({ _id }, { $set })] overwrites the fields of [$set] in the
    document with that [_id], if there is one, and reports how many matched. *)
Definition store_updateOne (c : Collection) (_id : ObjectId) (set : Document) (w : World)
  : nat * World :=
  match documents w c !! _id with
  | Some d => (1%nat, set_documents c (<[_id := set ∪ d]> (documents w c)) w)
  | None => (0%nat, w)
  end.

Definition answer {X : Type} (e : Event X) (w : World) : X * World :=
  match e in Event X return X * World with
  | console level args => (tt, print level args w)
  | axios_get url address key => (geocoding w address key, w)
  | createPayment request => (square w request, w)
  | deleteOne c _id =>
    let '(n, w') := store_deleteOne c _id w in (Returned n, w')
  | updateOne c _id set =>
    let '(n, w') := store_updateOne c _id set w in (Returned n, w')
  | new_Date => (clock w, w)
  end.

Fixpoint run {A : Type} (p : Prog A) (w : World) : A * World :=
  match p with
  | Ret a => (a, w)
  | Vis e k => let '(x, w') := answer e w in run (k x) w'
  end.

End Server.

Arguments Ret {ObjectId A} a.
Arguments Vis {ObjectId A X} e k.
Arguments Prog ObjectId A : clear implicits.
Arguments World ObjectId {_ _}.

(** ** The specification's words *)

(** Rounding [x] to 2 decimal places, half-up on the cent boundary: [r] is a
    whole number [n] of cents, and [x] lies in [[n - 1/2, n + 1/2)] cents. *)
Definition rounds_half_up_to_cents (x r : R) : Prop :=
  exists n : Z, r = IZR n / 100 /\ IZR n - / 2 <= x * 100 < IZR n + / 2.

(** Degrees to radians. *)
Definition radians (degrees : R) : R := degrees * Rtrigo1.PI / 180.

(** The haversine term [a] of two points given in degrees:
    sin²(Δlat/2) + cos(lat1)·cos(lat2)·sin²(Δlon/2). *)
Definition haversine_a (lat1 lon1 lat2 lon2 : R) : R :=
  (sin (radians (lat2 - lat1) / 2))² +
  cos (radians lat1) * cos (radians lat2) * (sin (radians (lon2 - lon1) / 2))².

(** The haversine great-circle distance on a sphere of radius [radius]:
    2·R·atan2(√a, √(1−a)). *)
Definition haversine (radius lat1 lon1 lat2 lon2 : R) : R :=
  let a := haversine_a lat1 lon1 lat2 lon2 in
  2 * radius * Math.atan2 (sqrt a) (sqrt (1 - a)).

(** ** The arithmetic of the code in binary64 *)

(** The estimator as the engine runs it: every Number a binary64 float, every
    [+], [-], [*], [/] and comparison the IEEE 754 one.  [Math.sin],
    [Math.cos] and [Math.atan2] are approximations the engine chooses, so
    they are a parameter; [Math.sqrt] and [Math.round] are exact. *)
Module Binary64.

Import Floats.
#[local] Open Scope float_scope.

(** The float of an integer below 2^53. *)
Definition of_Z (n : Z) : float :=
  match n with
  | Z0 => 0
  | Zpos p => of_uint63 (Uint63.of_Z (Zpos p))
  | Zneg p => - of_uint63 (Uint63.of_Z (Zpos p))
  end.

(** The real number a finite float stands for. *)
Definition exact (x : float) : option R :=
  match Prim2SF x with
  | S754_zero _ => Some 0%R
  | S754_finite s m e => Some (IZR (cond_Zopp s (Zpos m)) * powerRZ 2 e)%R
  | _ => None
  end.

(** [Math.round(x)]: [x] itself when it is an integer, a zero, an infinity or
    [NaN]; otherwise floor(x + 1/2), computed on the mantissa and exponent of
    [x], with the sign of [x] when that is 0. *)
Definition round (x : float) : float :=
  match Prim2SF x with
  | S754_finite s m e =>
    if (0 <=? e)%Z then x
    else
      let n := ((2 * cond_Zopp s (Zpos m) + 2 ^ (- e)) / 2 ^ (1 - e))%Z in
      if (n =? 0)%Z then (if s then -0 else 0) else of_Z n
  | _ => x
  end.

(** [Math.PI] *)
Definition PI : float := 0x1.921fb54442d18p+1.

Record MathLibrary := {
  sin : float -> float;
  cos : float -> float;
  atan2 : float -> float -> float
}.

(** Lines 42-52. *)
Definition calculateDistance (Math : MathLibrary) (lat1 lon1 lat2 lon2 : float) : float :=
  let R := 3959 in
  let dLat := (lat2 - lat1) * PI / 180 in
  let dLon := (lon2 - lon1) * PI / 180 in
  let a :=
    sin Math (dLat / 2) * sin Math (dLat / 2) +
    cos Math (lat1 * PI / 180) * cos Math (lat2 * PI / 180) *
    sin Math (dLon / 2) * sin Math (dLon / 2) in
  let c := 2 * atan2 Math (sqrt a) (sqrt (1 - a)) in
  R * c.

(** [subtotal >= threshold]; false for [undefined] and for [NaN]. *)
Definition number_ge (subtotal : option float) (threshold : float) : bool :=
  match subtotal with
  | Some s => threshold <=? s
  | None => false
  end.

(** Lines 26-31 and 78-93. *)
Definition calculateShippingCost (distance : float) (subtotal : option float) : float :=
  let baseRate := 5.00 in
  let costPerMile := 0.50 in
  let maxRate := 50.00 in
  let freeShippingThreshold := 150.00 in
  if number_ge subtotal freeShippingThreshold then 0
  else
    let cost := baseRate + distance * costPerMile in
    let cost := if maxRate <? cost then maxRate else cost in
    round (cost * 100) / 100.

End Binary64.

(** ** Sample data *)

Module Sample.

(** Identifiers written as 24 characters. *)
Definition parse (s : string) : option string :=
  if Nat.eqb (String.length s) 24 then Some s else None.

Definition env_without_key : ProcessEnv := {|
  STORE_ADDRESS := None;
  STORE_LAT := None;
  STORE_LNG := None;
  GOOGLE_MAPS_API_KEY := None
|}.

Definition env_with_key : ProcessEnv := {|
  STORE_ADDRESS := None;
  STORE_LAT := None;
  STORE_LNG := None;
  GOOGLE_MAPS_API_KEY := Some "k"%string
|}.

Definition product_id : string := "65f0a1b2c3d4e5f6a7b8c9d0".
Definition absent_id : string := "000000000000000000000000".

Definition a_product : gmap string Stored :=
  <["name" := SString "Vase"]> (<["price" := SNumber 12]> ∅)%string.

(** A world whose geocoding service finds nothing, whose payment processor
    declines, and whose store holds one product. *)
Definition world : World string := {|
  geocoding := fun _ _ => Returned [];
  square := fun _ => Returned {| Square.id := "p1"; Square.status := "FAILED" |}%string;
  documents := fun c =>
    match c with
    | products => {[ product_id := a_product ]}
    | _ => ∅
    end;
  clock := 0;
  output := []
|}.

Definition shipping_request : ShippingRequest.Body := {|
  ShippingRequest.address := Some "1 Main St"%string;
  ShippingRequest.city := Some "Tulsa"%string;
  ShippingRequest.state := Some "OK"%string;
  ShippingRequest.zipCode := Some "74101"%string;
  ShippingRequest.country := None;
  ShippingRequest.subtotal := None
|}.

Definition payment : PaymentRequest.Body := {|
  PaymentRequest.sourceId := Some "cnon:card"%string;
  PaymentRequest.amount := Some 20;
  PaymentRequest.currency := None;
  PaymentRequest.orderId := Some product_id;
  PaymentRequest.customerEmail := None;
  PaymentRequest.customerName := None
|}.

Definition payment_without_source : PaymentRequest.Body := {|
  PaymentRequest.sourceId := None;
  PaymentRequest.amount := Some 20;
  PaymentRequest.currency := None;
  PaymentRequest.orderId := Some product_id;
  PaymentRequest.customerEmail := None;
  PaymentRequest.customerName := None
|}.

Definition order_id : string := "75f0a1b2c3d4e5f6a7b8c9d0".

Definition an_order : gmap string Stored :=
  <["customerName" := SString "Ada"]> (<["status" := SString "pending"]> ∅)%string.

(** A world whose payment processor completes every payment and whose store
    holds one product and one order. *)
Definition paying_world : World string := {|
  geocoding := fun _ _ => Returned [];
  square := fun _ => Returned {| Square.id := "p2"; Square.status := "COMPLETED" |}%string;
  documents := fun c =>
    match c with
    | products => {[ product_id := a_product ]}
    | orders => {[ order_id := an_order ]}
    | settings => ∅
    end;
  clock := 1700000000000;
  output := []
|}.

Definition payment_for_order : PaymentRequest.Body := {|
  PaymentRequest.sourceId := Some "cnon:card"%string;
  PaymentRequest.amount := Some 20;
  PaymentRequest.currency := None;
  PaymentRequest.orderId := Some order_id;
  PaymentRequest.customerEmail := None;
  PaymentRequest.customerName := None
|}.

Definition payment_for_bad_id : PaymentRequest.Body := {|
  PaymentRequest.sourceId := Some "cnon:card"%string;
  PaymentRequest.amount := Some 20;
  PaymentRequest.currency := None;
  PaymentRequest.orderId := Some "ORD-1700000000000"%string;
  PaymentRequest.customerEmail := None;
  PaymentRequest.customerName := None
|}.

(** An update with an empty name and a price of 0. *)
Definition product_update : ProductRequest.Body := {|
  ProductRequest.name := Some ""%string;
  ProductRequest.description := None;
  ProductRequest.price := Some 0;
  ProductRequest.emoji := None
|}.

Import Floats.

(** A [Math] library that answers at the arguments the distance from
    (12, 0) to (-12, 180) needs with the floats nearest the exact sines and
    cosines there, and with [NaN] to [atan2] of a [NaN]. *)
Definition math : Binary64.MathLibrary := {|
  Binary64.sin := fun x =>
    if (x =? -0x1.acee9f37bebd5p-3)%float then (-0x1.a9cd9ac4258f5p-3)%float
    else if (x =? 0x1.921fb54442d18p+0)%float then 1%float
    else 0%float;
  Binary64.cos := fun x =>
    if (abs x =? 0x1.acee9f37bebd5p-3)%float then 0x1.f4cfc327a008p-1%float
    else 1%float;
  Binary64.atan2 := fun y x =>
    if is_nan y || is_nan x then nan else 0%float
|}.

End Sample.

(** * Properties *)

(** ** Math.round *)

Lemma round_bounds (x : R) : Math.round x - / 2 <= x < Math.round x + / 2.
Proof.
  unfold Math.round, Math.round_Z.
  pose proof (Zfloor_bound (x + / 2)); lra.
Qed.

Lemma round_unique (x : R) (n : Z) : IZR n - / 2 <= x < IZR n + / 2 -> Math.round x = IZR n.
Proof.
  intros Hn. unfold Math.round, Math.round_Z.
  f_equal. apply Zfloor_eq. lra.
Qed.

Lemma round_IZR (n : Z) : Math.round (IZR n) = IZR n.
Proof. apply round_unique; lra. Qed.

Lemma round_le (x y : R) : x <= y -> Math.round x <= Math.round y.
Proof.
  intros Hxy. unfold Math.round, Math.round_Z.
  apply IZR_le, Zfloor_le. lra.
Qed.

(** ** calculateShippingCost *)

Lemma number_ge_true (s : option R) (t : R) :
  number_ge s t = true <-> exists x, s = Some x /\ x >= t.
Proof.
  unfold number_ge. destruct s as [x|].
  - destruct (Rge_dec x t); split; intros Hx; try discriminate; eauto.
    destruct Hx as (y & [= <-] & Hy). contradiction.
  - split; [discriminate | intros (y & [=] & _)].
Qed.

Lemma cost_free (d : R) (s : option R) :
  number_ge s (freeShippingThreshold SHIPPING_RATES) = true ->
  calculateShippingCost d s = 0.
Proof. intros Hs. unfold calculateShippingCost. now rewrite Hs. Qed.

Lemma cost_charged (d : R) (s : option R) :
  number_ge s (freeShippingThreshold SHIPPING_RATES) = false ->
  calculateShippingCost d s = Math.round (Rmin (5 + d * / 2) 50 * 100) / 100.
Proof.
  intros Hs. unfold calculateShippingCost. rewrite Hs. cbn [baseRate costPerMile maxRate SHIPPING_RATES].
  do 2 f_equal. f_equal.
  destruct (Rgt_dec _ _) as [Hgt|Hle].
  - rewrite Rmin_right; lra.
  - rewrite Rmin_left; lra.
Qed.

Lemma cost_charged_range (d : R) (s : option R) :
  0 <= d ->
  number_ge s (freeShippingThreshold SHIPPING_RATES) = false ->
  5 <= calculateShippingCost d s <= 50.
Proof.
  intros Hd Hs. rewrite (cost_charged d s Hs).
  assert (Hlo : 500 <= Rmin (5 + d * / 2) 50 * 100).
  { apply Rmin_case; lra. }
  assert (Hhi : Rmin (5 + d * / 2) 50 * 100 <= 5000).
  { pose proof (Rmin_r (5 + d * / 2) 50). lra. }
  apply round_le in Hlo, Hhi.
  rewrite (round_IZR 500) in Hlo. rewrite (round_IZR 5000) in Hhi.
  lra.
Qed.

(** ** calculateDistance *)

Lemma calculateDistance_haversine_eq (lat1 lon1 lat2 lon2 : R) :
  calculateDistance lat1 lon1 lat2 lon2 = haversine 3959 lat1 lon1 lat2 lon2.
Proof.
  unfold calculateDistance, haversine, haversine_a, radians, Rsqr.
  unfold Math.sin, Math.cos, Math.sqrt, Math.PI.
  cbv zeta.
  set (a := sin _ * sin _ + _).
  set (b := sin _ * sin _ + _).
  assert (Hab : a = b) by (unfold a, b; ring).
  rewrite Hab. ring.
Qed.

(** cos(u - x)·cos(u + x) = cos²u - sin²x *)
Lemma cos_product (u x : R) : cos (u - x) * cos (u + x) = (cos u)² - (sin x)².
Proof.
  rewrite cos_minus, cos_plus.
  pose proof (sin2_cos2 u) as Hu. pose proof (sin2_cos2 x) as Hx.
  unfold Rsqr in *. nra.
Qed.

Lemma haversine_a_range (lat1 lon1 lat2 lon2 : R) :
  0 <= haversine_a lat1 lon1 lat2 lon2 <= 1.
Proof.
  unfold haversine_a.
  set (x := radians (lat2 - lat1) / 2).
  set (u := (radians lat1 + radians lat2) / 2).
  replace (radians lat1) with (u - x) by (unfold u, x, radians; field).
  replace (radians lat2) with (u + x) by (unfold u, x, radians; field).
  rewrite cos_product.
  set (t := (sin (radians (lon2 - lon1) / 2))²).
  assert (Ht : 0 <= t <= 1).
  { unfold t. split; [apply Rle_0_sqr|].
    pose proof (sin2_cos2 (radians (lon2 - lon1) / 2)).
    pose proof (Rle_0_sqr (cos (radians (lon2 - lon1) / 2))). lra. }
  assert (Hx : 0 <= (sin x)² <= 1).
  { split; [apply Rle_0_sqr|].
    pose proof (sin2_cos2 x). pose proof (Rle_0_sqr (cos x)). lra. }
  assert (Hu : 0 <= (cos u)² <= 1).
  { split; [apply Rle_0_sqr|].
    pose proof (sin2_cos2 u). pose proof (Rle_0_sqr (sin u)). lra. }
  nra.
Qed.

Lemma atan2_nonneg (y x : R) : 0 <= y -> 0 <= x -> 0 <= Math.atan2 y x.
Proof.
  intros Hy Hx. unfold Math.atan2.
  pose proof PI_RGT_0 as Hpi.
  destruct (Rlt_dec 0 x) as [Hpos|Hnpos].
  - rewrite <- atan_0.
    destruct (Req_dec y 0) as [->|Hne].
    + unfold Rdiv. rewrite Rmult_0_l. lra.
    + left. apply atan_increasing. apply Rdiv_lt_0_compat; lra.
  - destruct (Rlt_dec x 0); [lra|].
    destruct (Rlt_dec 0 y); [lra|].
    destruct (Rlt_dec y 0); lra.
Qed.

Lemma calculateDistance_nonneg (lat1 lon1 lat2 lon2 : R) :
  0 <= calculateDistance lat1 lon1 lat2 lon2.
Proof.
  rewrite calculateDistance_haversine_eq. unfold haversine. cbv zeta.
  pose proof (atan2_nonneg (sqrt (haversine_a lat1 lon1 lat2 lon2))
                (sqrt (1 - haversine_a lat1 lon1 lat2 lon2))
                (sqrt_pos _) (sqrt_pos _)).
  nra.
Qed.

Lemma haversine_a_sym (lat1 lon1 lat2 lon2 : R) :
  haversine_a lat1 lon1 lat2 lon2 = haversine_a lat2 lon2 lat1 lon1.
Proof.
  unfold haversine_a.
  replace (radians (lat1 - lat2) / 2) with (- (radians (lat2 - lat1) / 2))
    by (unfold radians; field).
  replace (radians (lon1 - lon2) / 2) with (- (radians (lon2 - lon1) / 2))
    by (unfold radians; field).
  rewrite !sin_neg, <- !Rsqr_neg. ring.
Qed.

Lemma haversine_a_same (lat lon : R) : haversine_a lat lon lat lon = 0.
Proof.
  unfold haversine_a.
  replace (radians (lat - lat) / 2) with 0 by (unfold radians; field).
  replace (radians (lon - lon) / 2) with 0 by (unfold radians; field).
  rewrite sin_0. unfold Rsqr. ring.
Qed.

Lemma atan2_0_1 : Math.atan2 0 1 = 0.
Proof.
  unfold Math.atan2. destruct (Rlt_dec 0 1); [|lra].
  unfold Rdiv. rewrite Rmult_0_l. apply atan_0.
Qed.

(** For a in [0, 1] the angle atan2(√a, √(1−a)) is asin(√a). *)
Lemma atan2_sqrt_asin (a : R) :
  0 <= a <= 1 -> Math.atan2 (sqrt a) (sqrt (1 - a)) = asin (sqrt a).
Proof.
  intros [Ha0 Ha1]. unfold Math.atan2.
  destruct (Req_dec a 1) as [->|Hne].
  - replace (1 - 1) with 0 by ring. rewrite sqrt_0, sqrt_1, asin_1.
    destruct (Rlt_dec 0 0); [lra|]. destruct (Rlt_dec 0 0); [lra|].
    destruct (Rlt_dec 0 1); [reflexivity | lra].
  - assert (Hpos : 0 < sqrt (1 - a)) by (apply sqrt_lt_R0; lra).
    destruct (Rlt_dec 0 (sqrt (1 - a))); [|lra].
    assert (Hs1 : sqrt a < 1).
    { rewrite <- sqrt_1. apply sqrt_lt_1; lra. }
    pose proof (sqrt_pos a).
    rewrite asin_atan by lra.
    now rewrite Rsqr_sqrt.
Qed.

Lemma calculateDistance_asin (lat1 lon1 lat2 lon2 : R) :
  calculateDistance lat1 lon1 lat2 lon2 =
  2 * 3959 * asin (sqrt (haversine_a lat1 lon1 lat2 lon2)).
Proof.
  rewrite calculateDistance_haversine_eq. unfold haversine. cbv zeta.
  now rewrite atan2_sqrt_asin by apply haversine_a_range.
Qed.

(** ** Numeric enclosures *)

Lemma PI_enclosure : 3.14159 < PI < 3.1416.
Proof.
  pose proof (PI_2_3_7_ineq 2) as Hpi.
  unfold PI_2_3_7_tg, tg_alt, Ratan_seq in Hpi. simpl in Hpi. lra.
Qed.

Lemma INR_fact (n : nat) (z : Z) : Z.of_nat (fact n) = z -> INR (fact n) = IZR z.
Proof. intros <-. apply INR_IZR_INZ. Qed.

Lemma sin_lb_poly (t : R) : sin_lb t = t - t^3/6 + t^5/120 - t^7/5040.
Proof.
  unfold sin_lb, sin_approx, sin_term. cbn [sum_f_R0 Nat.mul Nat.add].
  rewrite (INR_fact 1 1), (INR_fact 3 6), (INR_fact 5 120), (INR_fact 7 5040) by reflexivity.
  field.
Qed.

Lemma sin_ub_poly (t : R) : sin_ub t = t - t^3/6 + t^5/120 - t^7/5040 + t^9/362880.
Proof.
  unfold sin_ub, sin_approx, sin_term. cbn [sum_f_R0 Nat.mul Nat.add].
  rewrite (INR_fact 1 1), (INR_fact 3 6), (INR_fact 5 120), (INR_fact 7 5040),
    (INR_fact 9 362880) by (vm_compute; reflexivity).
  field.
Qed.

Lemma cos_lb_poly (t : R) : cos_lb t = 1 - t^2/2 + t^4/24 - t^6/720.
Proof.
  unfold cos_lb, cos_approx, cos_term. cbn [sum_f_R0 Nat.mul Nat.add].
  rewrite (INR_fact 0 1), (INR_fact 2 2), (INR_fact 4 24), (INR_fact 6 720) by reflexivity.
  field.
Qed.

Lemma cos_ub_poly (t : R) : cos_ub t = 1 - t^2/2 + t^4/24 - t^6/720 + t^8/40320.
Proof.
  unfold cos_ub, cos_approx, cos_term. cbn [sum_f_R0 Nat.mul Nat.add].
  rewrite (INR_fact 0 1), (INR_fact 2 2), (INR_fact 4 24), (INR_fact 6 720),
    (INR_fact 8 40320) by (vm_compute; reflexivity).
  field.
Qed.

(** An angle between two bounds in [0, 3/2] has its sine between the Taylor
    polynomials at the bounds. *)
Lemma sin_enclosure (lo t hi : R) :
  0 <= lo -> lo <= t -> t <= hi -> hi <= 3 / 2 ->
  lo - lo^3/6 + lo^5/120 - lo^7/5040 <= sin t <=
  hi - hi^3/6 + hi^5/120 - hi^7/5040 + hi^9/362880.
Proof.
  intros H0 Hlo Hhi H32. pose proof PI2_3_2 as Hpi.
  rewrite <- sin_lb_poly, <- sin_ub_poly.
  pose proof (SIN lo ltac:(lra) ltac:(lra)) as [Hl _].
  pose proof (SIN hi ltac:(lra) ltac:(lra)) as [_ Hu].
  pose proof (sin_incr_1 lo t ltac:(lra) ltac:(lra) ltac:(lra) ltac:(lra) Hlo).
  pose proof (sin_incr_1 t hi ltac:(lra) ltac:(lra) ltac:(lra) ltac:(lra) Hhi).
  lra.
Qed.

Lemma cos_enclosure (lo t hi : R) :
  0 <= lo -> lo <= t -> t <= hi -> hi <= 3 / 2 ->
  1 - hi^2/2 + hi^4/24 - hi^6/720 <= cos t <=
  1 - lo^2/2 + lo^4/24 - lo^6/720 + lo^8/40320.
Proof.
  intros H0 Hlo Hhi H32. pose proof PI2_3_2 as Hpi.
  rewrite <- cos_lb_poly, <- cos_ub_poly.
  pose proof (COS hi ltac:(lra) ltac:(lra)) as [Hl _].
  pose proof (COS lo ltac:(lra) ltac:(lra)) as [_ Hu].
  pose proof (cos_decr_1 lo t ltac:(lra) ltac:(lra) ltac:(lra) ltac:(lra) Hlo).
  pose proof (cos_decr_1 t hi ltac:(lra) ltac:(lra) ltac:(lra) ltac:(lra) Hhi).
  lra.
Qed.

(** The haversine term between the default store and the fallback
    coordinate. *)
Lemma fallback_a_enclosure :
  0.00207093949 <= haversine_a 35.8456 (-103.3181) 35.0 (-97.0) <= 0.00207096096.
Proof.
  pose proof PI_enclosure as [Hpl Hph].
  unfold haversine_a, radians.
  replace ((35.0 - 35.8456) * PI / 180 / 2) with (- (0.8456 * PI / 360)) by lra.
  replace ((-97.0 - -103.3181) * PI / 180 / 2) with (6.3181 * PI / 360) by lra.
  rewrite sin_neg, <- Rsqr_neg.
  pose proof (sin_enclosure 0.0073792458 (0.8456 * PI / 360) 0.0073792694
                ltac:(lra) ltac:(lra) ltac:(lra) ltac:(lra)) as Hsx.
  pose proof (sin_enclosure 0.0551357771 (6.3181 * PI / 360) 0.0551359527
                ltac:(lra) ltac:(lra) ltac:(lra) ltac:(lra)) as Hsv.
  pose proof (cos_enclosure 0.6256232139 (35.8456 * PI / 180) 0.6256252054
                ltac:(lra) ltac:(lra) ltac:(lra) ltac:(lra)) as Hc1.
  pose proof (cos_enclosure 0.6108647222 (35.0 * PI / 180) 0.6108666667
                ltac:(lra) ltac:(lra) ltac:(lra) ltac:(lra)) as Hc2.
  set (sx := sin (0.8456 * PI / 360)) in *.
  set (sv := sin (6.3181 * PI / 360)) in *.
  set (c1 := cos (35.8456 * PI / 180)) in *.
  set (c2 := cos (35.0 * PI / 180)) in *.
  assert (Hsx' : 0.0073791788 <= sx <= 0.0073792025) by lra.
  assert (Hsv' : 0.0551078463 <= sv <= 0.0551080217) by lra.
  assert (Hc1' : 0.8105965754 <= c1 <= 0.8105983239) by lra.
  assert (Hc2' : 0.819150746 <= c2 <= 0.8191523423) by lra.
  clear Hsx Hsv Hc1 Hc2 Hpl Hph. clearbody sx sv c1 c2.
  unfold Rsqr.
  assert (Hxx : 0.0073791788 * 0.0073791788 <= sx * sx <= 0.0073792025 * 0.0073792025) by nra.
  assert (Hvv : 0.0551078463 * 0.0551078463 <= sv * sv <= 0.0551080217 * 0.0551080217) by nra.
  assert (Hcc : 0.8105965754 * 0.819150746 <= c1 * c2 <= 0.8105983239 * 0.8191523423) by nra.
  set (xx := sx * sx) in *. set (vv := sv * sv) in *. set (cc := c1 * c2) in *.
  clearbody xx vv cc.
  nra.
Qed.

Lemma fallback_distance_enclosure :
  360.45 < calculateDistance 35.8456 (-103.3181) 35.0 (-97.0) < 360.46.
Proof.
  rewrite calculateDistance_asin.
  pose proof fallback_a_enclosure as [Hal Hah].
  set (a := haversine_a 35.8456 (-103.3181) 35.0 (-97.0)) in *. clearbody a.
  pose proof (sqrt_pos a) as Hs0.
  pose proof (sqrt_sqrt a ltac:(lra)) as Hss.
  assert (Hs : 0.0455071379 < sqrt a < 0.0455083995) by nra.
  pose proof (sin_asin (sqrt a) ltac:(lra)) as Hsin.
  pose proof (asin_bound (sqrt a)) as [Hb1 Hb2].
  pose proof PI2_3_2 as Hpi.
  pose proof (sin_enclosure (360.45 / 7918) (360.45 / 7918) (360.45 / 7918)
                ltac:(lra) ltac:(lra) ltac:(lra) ltac:(lra)) as [_ Hlo].
  pose proof (sin_enclosure (360.46 / 7918) (360.46 / 7918) (360.46 / 7918)
                ltac:(lra) ltac:(lra) ltac:(lra) ltac:(lra)) as [Hhi _].
  assert (Hlo' : sin (360.45 / 7918) < sin (asin (sqrt a))) by lra.
  assert (Hhi' : sin (asin (sqrt a)) < sin (360.46 / 7918)) by lra.
  apply sin_increasing_0 in Hlo'; [|lra..].
  apply sin_increasing_0 in Hhi'; [|lra..].
  lra.
Qed.

(** ** The claims on the estimator *)

(** The policy in exact arithmetic.  With the default rates (5.00, 0.50,
    50.00, 150.00): a subtotal at or above the threshold ships free, the
    boundary included; below it the cost is baseRate + d × costPerMile, capped
    at maxRate, rounded half-up to cents; calculateShippingCost(1000, 0) =
    50.00 and calculateShippingCost(0, 0) = 5.00. *)
Theorem calculateShippingCost_policy (d s : R) :
  SHIPPING_RATES =
    {| baseRate := 5.00; costPerMile := 0.50; maxRate := 50.00;
       freeShippingThreshold := 150.00 |} /\
  (s >= freeShippingThreshold SHIPPING_RATES -> calculateShippingCost d (Some s) = 0) /\
  (s < freeShippingThreshold SHIPPING_RATES ->
   rounds_half_up_to_cents
     (Rmin (baseRate SHIPPING_RATES + d * costPerMile SHIPPING_RATES) (maxRate SHIPPING_RATES))
     (calculateShippingCost d (Some s))) /\
  calculateShippingCost 1000 (Some 0) = 50.00 /\
  calculateShippingCost 0 (Some 0) = 5.00.
Proof.
  assert (Hbelow : forall x, x < 150 -> number_ge (Some x) (freeShippingThreshold SHIPPING_RATES) = false).
  { intros x Hx. cbn. destruct (Rge_dec x 150.00); [lra | reflexivity]. }
  split; [reflexivity|]. split; [|split; [|split]].
  - intros Hs. apply cost_free, number_ge_true. eauto.
  - cbn [baseRate costPerMile maxRate freeShippingThreshold SHIPPING_RATES].
    intros Hs. rewrite cost_charged by (apply Hbelow; lra).
    replace (Rmin (5.00 + d * 0.50) 50.00) with (Rmin (5 + d * / 2) 50)
      by (f_equal; lra).
    exists (Math.round_Z (Rmin (5 + d * / 2) 50 * 100)). split; [reflexivity|].
    pose proof (round_bounds (Rmin (5 + d * / 2) 50 * 100)) as Hr.
    unfold Math.round in Hr. lra.
  - rewrite cost_charged by (apply Hbelow; lra).
    rewrite Rmin_right by lra.
    replace (50 * 100) with (IZR 5000) by lra. rewrite round_IZR. lra.
  - rewrite cost_charged by (apply Hbelow; lra).
    rewrite Rmin_left by lra.
    replace ((5 + 0 * / 2) * 100) with (IZR 500) by lra. rewrite round_IZR. lra.
Qed.

(** In exact arithmetic calculateDistance is the haversine distance with
    R = 3959: with the differences converted to radians and
    a = sin²(Δlat/2) + cos(lat1)·cos(lat2)·sin²(Δlon/2), which lies in [0, 1],
    the result is 2·R·atan2(√a, √(1−a)), that is 2·R·asin(√a). *)
Theorem calculateDistance_is_haversine (lat1 lon1 lat2 lon2 : R) :
  let a :=
    (sin (radians (lat2 - lat1) / 2))² +
    cos (radians lat1) * cos (radians lat2) * (sin (radians (lon2 - lon1) / 2))² in
  0 <= a <= 1 /\
  calculateDistance lat1 lon1 lat2 lon2 = 2 * 3959 * Math.atan2 (sqrt a) (sqrt (1 - a)) /\
  calculateDistance lat1 lon1 lat2 lon2 = haversine 3959 lat1 lon1 lat2 lon2 /\
  calculateDistance lat1 lon1 lat2 lon2 = 2 * 3959 * asin (sqrt a).
Proof.
  cbv zeta. split; [apply (haversine_a_range lat1 lon1 lat2 lon2)|].
  split; [apply calculateDistance_haversine_eq|].
  split; [apply calculateDistance_haversine_eq|].
  apply calculateDistance_asin.
Qed.

(** C4. calculateDistance(A, B) = calculateDistance(B, A), and
    calculateDistance(A, A) = 0. *)
Theorem calculateDistance_symmetric_zero (latA lonA latB lonB : R) :
  calculateDistance latA lonA latB lonB = calculateDistance latB lonB latA lonA /\
  calculateDistance latA lonA latA lonA = 0.
Proof.
  rewrite !calculateDistance_haversine_eq. unfold haversine. cbv zeta. split.
  - now rewrite (haversine_a_sym latA lonA latB lonB).
  - rewrite haversine_a_same, Rminus_0_r, sqrt_0, sqrt_1, atan2_0_1. ring.
Qed.

Lemma cost_range (d : R) (s : option R) :
  0 <= d -> 0 <= calculateShippingCost d s <= 50.
Proof.
  intros Hd.
  destruct (number_ge s (freeShippingThreshold SHIPPING_RATES)) eqn:Hs.
  - rewrite cost_free by assumption. lra.
  - pose proof (cost_charged_range d s Hd Hs). lra.
Qed.

Lemma cost_cents (d : R) (s : option R) :
  exists n : Z, calculateShippingCost d s = IZR n / 100.
Proof.
  destruct (number_ge s (freeShippingThreshold SHIPPING_RATES)) eqn:Hs.
  - exists 0%Z. rewrite cost_free by assumption. lra.
  - rewrite cost_charged by assumption. eexists. reflexivity.
Qed.

Lemma cost_zero_iff (d : R) (s : option R) :
  0 <= d ->
  calculateShippingCost d s = 0 <->
  number_ge s (freeShippingThreshold SHIPPING_RATES) = true.
Proof.
  intros Hd.
  destruct (number_ge s (freeShippingThreshold SHIPPING_RATES)) eqn:Hs.
  - split; [reflexivity | intros _; now apply cost_free].
  - pose proof (cost_charged_range d s Hd Hs). split; [lra | discriminate].
Qed.

(** In exact arithmetic calculateDistance is never negative; for a distance
    d >= 0 the cost lies in [0, maxRate] and is a whole number of cents; so
    every quote has its cost in [0, maxRate], in cents, and a distance >= 0
    in tenths. *)
Theorem quote_invariant :
  (forall lat1 lon1 lat2 lon2 : R, calculateDistance lat1 lon1 lat2 lon2 >= 0) /\
  (forall (d : R) (s : option R), d >= 0 ->
     0 <= calculateShippingCost d s <= maxRate SHIPPING_RATES /\
     exists n : Z, calculateShippingCost d s = IZR n / 100) /\
  (forall (env : ProcessEnv) (coords : Geo.Coords) (subtotal : option R),
     exists (distanceMiles cost : R) (message : string),
       quote env coords subtotal =
         {| status := 200;
            body := [("distance", JNumber distanceMiles);
                     ("shippingCost", JNumber cost);
                     ("message", JString message)]%string |} /\
       0 <= cost <= maxRate SHIPPING_RATES /\
       (exists n : Z, cost = IZR n / 100) /\
       distanceMiles >= 0 /\
       (exists n : Z, distanceMiles = IZR n / 10)).
Proof.
  split; [|split].
  - intros. apply Rle_ge, calculateDistance_nonneg.
  - intros d s Hd. cbn [maxRate SHIPPING_RATES]. split.
    + pose proof (cost_range d s (Rge_le _ _ Hd)). lra.
    + apply cost_cents.
  - intros env coords subtotal.
    set (distance := calculateDistance (Store.lat (STORE_LOCATION env))
                       (Store.lng (STORE_LOCATION env)) (Geo.lat coords) (Geo.lng coords)).
    assert (Hd : 0 <= distance) by apply calculateDistance_nonneg.
    do 3 eexists. split; [reflexivity|]. fold distance.
    cbn [maxRate SHIPPING_RATES]. split; [|split; [|split]].
    + pose proof (cost_range distance subtotal Hd). lra.
    + apply cost_cents.
    + assert (H0 : 0 <= distance * 10) by lra.
      apply round_le in H0. rewrite (round_IZR 0) in H0. lra.
    + eexists. reflexivity.
Qed.

(** C9. For a distance d >= 0 the cost is 0 exactly when the subtotal is at or
    above the threshold, and it is never strictly between 0 and baseRate; so a
    quote says "Free shipping!" exactly when the subtotal meets the threshold. *)
Theorem free_shipping_iff_threshold (d s : R) :
  d >= 0 ->
  (calculateShippingCost d (Some s) = 0 <-> s >= freeShippingThreshold SHIPPING_RATES) /\
  ~ (0 < calculateShippingCost d (Some s) < baseRate SHIPPING_RATES) /\
  (forall (env : ProcessEnv) (coords : Geo.Coords),
     field "message" (body (quote env coords (Some s))) = Some (JString "Free shipping!") <->
     s >= freeShippingThreshold SHIPPING_RATES).
Proof.
  intros Hd%Rge_le.
  assert (Hge : forall x, number_ge (Some x) (freeShippingThreshold SHIPPING_RATES) = true <->
                          x >= freeShippingThreshold SHIPPING_RATES).
  { intros x. rewrite number_ge_true. split.
    - now intros (y & [= <-] & Hy).
    - eauto. }
  split; [|split].
  - rewrite <- Hge. now apply cost_zero_iff.
  - cbn [baseRate SHIPPING_RATES].
    destruct (number_ge (Some s) (freeShippingThreshold SHIPPING_RATES)) eqn:Hs.
    + rewrite cost_free by assumption. lra.
    + pose proof (cost_charged_range d (Some s) Hd Hs). lra.
  - intros env coords. rewrite <- Hge.
    rewrite <- (cost_zero_iff _ (Some s) (calculateDistance_nonneg
      (Store.lat (STORE_LOCATION env)) (Store.lng (STORE_LOCATION env))
      (Geo.lat coords) (Geo.lng coords))).
    unfold quote. cbv zeta. cbn [json body field String.eqb Ascii.eqb Bool.eqb].
    destruct (Req_dec_T _ 0) as [Hz|Hnz].
    + split; [intros _; exact Hz | reflexivity].
    + split; [intros [=] | contradiction].
Qed.

(** ** Running handlers *)

Section Handlers.

Context {ObjectId : Type} `{Countable ObjectId}.
Variable ObjectId_parse : string -> option ObjectId.

Implicit Types (w : World ObjectId) (env : ProcessEnv) (g : Globals).

Lemma run_bind {A B : Type} (m : Prog ObjectId A) (k : A -> Prog ObjectId B) w :
  run (bind m k) w = run (k (run m w).1) (run m w).2.
Proof.
  revert w. induction m as [a|X e h IH]; intros w; cbn.
  - reflexivity.
  - destruct (answer e w) as [x w']. apply IH.
Qed.

Lemma run_geocodeAddress env (address : string) w :
  run (geocodeAddress env address) w =
  if truthy (GOOGLE_MAPS_API_KEY env) then
    match geocoding w address (text (GOOGLE_MAPS_API_KEY env)) with
    | Returned (location :: _) => (Some location, w)
    | Returned [] => (None, w)
    | Threw message => (None, print error ["Geocoding error:"%string; message] w)
    end
  else
    (Some {| Geo.lat := 35.0; Geo.lng := -97.0 |},
     print warn ["Google Maps API Key not set, using estimated coordinates"%string] w).
Proof.
  unfold geocodeAddress.
  destruct (truthy (GOOGLE_MAPS_API_KEY env)); cbn; [|reflexivity].
  destruct (geocoding w address _) as [[|location rest]|message]; reflexivity.
Qed.

Lemma run_shipping env (req : ShippingRequest.Body) w :
  run (post_api_shipping_calculate env req) w =
  if truthy (ShippingRequest.address req) && truthy (ShippingRequest.city req)
     && truthy (ShippingRequest.state req) && truthy (ShippingRequest.zipCode req) then
    match run (geocodeAddress env (fullAddress req)) w with
    | (Some coords, w1) => (quote env coords (ShippingRequest.subtotal req), w1)
    | (None, w1) =>
      (status_json 400 [("error", JString "Unable to validate address")]%string, w1)
    end
  else (status_json 400 [("error", JString "Incomplete shipping address")]%string, w).
Proof.
  unfold post_api_shipping_calculate.
  destruct (truthy (ShippingRequest.address req)), (truthy (ShippingRequest.city req)),
    (truthy (ShippingRequest.state req)), (truthy (ShippingRequest.zipCode req));
    cbn [negb orb andb]; try reflexivity.
  unfold try_catch, mbind, Prog_bind. rewrite !run_bind.
  destruct (run (geocodeAddress env (fullAddress req)) w) as [[coords|] w1]; reflexivity.
Qed.

(** X9. [geocodeAddress] answers [null] exactly when a key is configured and
    the service fails or finds nothing. *)
Lemma geocodeAddress_null env (address : string) w :
  (run (geocodeAddress env address) w).1 = None <->
  truthy (GOOGLE_MAPS_API_KEY env) = true /\
  (geocoding w address (text (GOOGLE_MAPS_API_KEY env)) = Returned [] \/
   exists message, geocoding w address (text (GOOGLE_MAPS_API_KEY env)) = Threw message).
Proof.
  rewrite run_geocodeAddress.
  destruct (truthy (GOOGLE_MAPS_API_KEY env)).
  - destruct (geocoding w address _) as [[|location rest]|message]; cbn.
    + split; auto.
    + split; [discriminate|]. intros [_ [[=]|[message [=]]]].
    + split; eauto.
  - cbn. split; [discriminate | intros [[=] _]].
Qed.

(** ** The claims on the handlers *)

(** C5. A request that lacks one of the four address fields is answered 400
    by a handler that performs no call at all, so geocoding is never invoked;
    a request with a complete address whose resolution gives no coordinates is
    answered 400 "Unable to validate address", which is no quote; so it is
    when a key is configured and the service finds nothing. *)
Theorem shipping_rejects_before_quoting env (req : ShippingRequest.Body) :
  (ShippingRequest.address req = None \/ ShippingRequest.city req = None \/
   ShippingRequest.state req = None \/ ShippingRequest.zipCode req = None ->
   post_api_shipping_calculate (ObjectId := ObjectId) env req =
   Ret (status_json 400 [("error", JString "Incomplete shipping address")]%string)) /\
  (truthy (ShippingRequest.address req) = true -> truthy (ShippingRequest.city req) = true ->
   truthy (ShippingRequest.state req) = true -> truthy (ShippingRequest.zipCode req) = true ->
   forall w, (run (geocodeAddress env (fullAddress req)) w).1 = None ->
     (run (post_api_shipping_calculate env req) w).1 =
       status_json 400 [("error", JString "Unable to validate address")]%string /\
     forall coords subtotal, (run (post_api_shipping_calculate env req) w).1 <>
                             quote env coords subtotal) /\
  (truthy (ShippingRequest.address req) = true -> truthy (ShippingRequest.city req) = true ->
   truthy (ShippingRequest.state req) = true -> truthy (ShippingRequest.zipCode req) = true ->
   forall w, truthy (GOOGLE_MAPS_API_KEY env) = true ->
     geocoding w (fullAddress req) (text (GOOGLE_MAPS_API_KEY env)) = Returned [] ->
     run (post_api_shipping_calculate env req) w =
       (status_json 400 [("error", JString "Unable to validate address")]%string, w)).
Proof.
  split; [|split]; cycle 2.
  { intros Ha Hc Hs Hz w Hkey Hnone.
    now rewrite run_shipping, Ha, Hc, Hs, Hz, run_geocodeAddress, Hkey, Hnone. }
  - intros Hmissing. unfold post_api_shipping_calculate.
    assert (Hfalsy : negb (truthy (ShippingRequest.address req))
                     || negb (truthy (ShippingRequest.city req))
                     || negb (truthy (ShippingRequest.state req))
                     || negb (truthy (ShippingRequest.zipCode req)) = true).
    { destruct Hmissing as [-> | [-> | [-> | ->]]]; cbn;
        rewrite ?orb_true_r; reflexivity. }
    cbv zeta. rewrite Hfalsy. reflexivity.
  - intros Ha Hc Hs Hz w Hnull.
    rewrite run_shipping, Ha, Hc, Hs, Hz. cbn [andb].
    destruct (run (geocodeAddress env (fullAddress req)) w) as [[coords|] w1];
      [discriminate|].
    split; [reflexivity|]. intros coords subtotal. cbn. discriminate.
Qed.


Lemma run_delete g (id : string) w :
  run (delete_api_products_id ObjectId_parse g id) w =
  match productsCollection g with
  | None => (status_json 503 [("error", JString "Database not connected")]%string, w)
  | Some collection =>
    match ObjectId_parse id with
    | None => (status_json 400 [("error", JString "Invalid product ID")]%string, w)
    | Some _id =>
      match documents w collection !! _id with
      | Some _ =>
        (json [("message", JString "Product deleted successfully")]%string,
         set_documents collection (delete _id (documents w collection)) w)
      | None => (status_json 404 [("error", JString "Product not found")]%string, w)
      end
    end
  end.
Proof.
  unfold delete_api_products_id, ObjectId_isValid, new_ObjectId.
  destruct (productsCollection g) as [collection|]; [|reflexivity].
  destruct (ObjectId_parse id) as [_id|]; [|reflexivity].
  cbn. unfold store_deleteOne.
  destruct (documents w collection !! _id); reflexivity.
Qed.

(** C8, as the handler has it.  With the products collection connected: an
    invalid id is answered 400 by a handler that performs no call, so the
    store is untouched; a well-formed id of no product is answered 404; a
    well-formed id of a product deletes that product and is answered 200 with
    a message. *)
Theorem delete_product_statuses g (collection : Collection) (id : string) w :
  productsCollection g = Some collection ->
  (ObjectId_isValid ObjectId_parse id = false ->
   delete_api_products_id ObjectId_parse g id =
   Ret (status_json 400 [("error", JString "Invalid product ID")]%string)) /\
  (forall _id : ObjectId, ObjectId_parse id = Some _id ->
   documents w collection !! _id = None ->
   run (delete_api_products_id ObjectId_parse g id) w =
   (status_json 404 [("error", JString "Product not found")]%string, w)) /\
  (forall (_id : ObjectId) (product : Document), ObjectId_parse id = Some _id ->
   documents w collection !! _id = Some product ->
   exists w',
     run (delete_api_products_id ObjectId_parse g id) w =
     ({| status := 200; body := [("message", JString "Product deleted successfully")]%string |},
      w') /\
     documents w' collection = delete _id (documents w collection) /\
     documents w' collection !! _id = None /\
     forall c, c <> collection -> documents w' c = documents w c).
Proof.
  intros Hconnected. split; [|split].
  - unfold delete_api_products_id, ObjectId_isValid. rewrite Hconnected.
    destruct (ObjectId_parse id); [discriminate | reflexivity].
  - intros _id Hid Habsent. now rewrite run_delete, Hconnected, Hid, Habsent.
  - intros _id product Hid Hpresent.
    rewrite run_delete, Hconnected, Hid, Hpresent.
    eexists. split; [reflexivity|]. cbn.
    rewrite decide_True by reflexivity.
    split; [reflexivity|]. split; [apply lookup_delete_eq|].
    intros c Hc. now rewrite decide_False.
Qed.

(** The failure answers of the payment handler.  A request that lacks a
    required field is answered 400 with an error message by a handler that
    performs no call; a
    payment the processor returns with a status other than COMPLETED or
    APPROVED is answered 400 with success: false, a processor error 500 with
    success: false, and both leave every stored document as it was; the
    store changes only after a payment that is COMPLETED or APPROVED. *)
Theorem payment_failure_leaves_order g (req : PaymentRequest.Body) w :
  let missing :=
    negb (truthy (PaymentRequest.sourceId req))
    || negb (truthy_number (PaymentRequest.amount req))
    || negb (truthy (PaymentRequest.orderId req)) in
  (missing = true ->
   post_api_payments_square ObjectId_parse g req =
   Ret (status_json 400 [("error", JString "Missing required payment fields")]%string)) /\
  (missing = false ->
   forall payment : Square.Payment,
     square w (payment_request req) = Returned payment -> completed payment = false ->
     run (post_api_payments_square ObjectId_parse g req) w =
     (status_json 400 [("success", JBool false);
                       ("message", JString ("Payment " ++ Square.status payment))]%string,
      w)) /\
  (missing = false ->
   forall message : string,
     square w (payment_request req) = Threw message ->
     exists w',
       run (post_api_payments_square ObjectId_parse g req) w =
       (status_json 500
          [("success", JBool false);
           ("error", JString (if String.eqb message "" then "Payment processing failed"
                              else message))]%string,
        w') /\
       documents w' = documents w) /\
  (documents (run (post_api_payments_square ObjectId_parse g req) w).2 <> documents w ->
   missing = false /\
   exists payment : Square.Payment,
     square w (payment_request req) = Returned payment /\ completed payment = true).
Proof.
  intros missing.
  assert (Hmiss : missing = true ->
    post_api_payments_square ObjectId_parse g req =
    Ret (status_json 400 [("error", JString "Missing required payment fields")]%string)).
  { intros Hm. unfold post_api_payments_square. cbv zeta. fold missing. now rewrite Hm. }
  assert (Hdeclined : missing = false ->
    forall payment : Square.Payment,
      square w (payment_request req) = Returned payment -> completed payment = false ->
      run (post_api_payments_square ObjectId_parse g req) w =
      (status_json 400 [("success", JBool false);
                        ("message", JString ("Payment " ++ Square.status payment))]%string,
       w)).
  { intros Hm payment Hsq Hc. unfold post_api_payments_square. cbv zeta. fold missing.
    rewrite Hm. cbn. rewrite Hsq. cbn. now rewrite Hc. }
  assert (Hthrew : missing = false ->
    forall message : string,
      square w (payment_request req) = Threw message ->
      run (post_api_payments_square ObjectId_parse g req) w =
      (status_json 500
         [("success", JBool false);
          ("error", JString (if String.eqb message "" then "Payment processing failed"
                             else message))]%string,
       print error ["Payment error:"%string; message] w)).
  { intros Hm message Hsq. unfold post_api_payments_square. cbv zeta. fold missing.
    rewrite Hm. cbn. rewrite Hsq. reflexivity. }
  split; [exact Hmiss|]. split; [exact Hdeclined|]. split.
  - intros Hm message Hsq. eexists. split; [now apply Hthrew|]. reflexivity.
  - intros Hchanged. destruct missing eqn:Hm.
    + rewrite (Hmiss eq_refl) in Hchanged. now contradict Hchanged.
    + split; [reflexivity|].
      destruct (square w (payment_request req)) as [payment|message] eqn:Hsq.
      * destruct (completed payment) eqn:Hc; [eauto|].
        rewrite (Hdeclined eq_refl payment eq_refl Hc) in Hchanged. now contradict Hchanged.
      * rewrite (Hthrew eq_refl message eq_refl) in Hchanged. now contradict Hchanged.
Qed.

(** The other direction: a COMPLETED or APPROVED payment for a stored order
    writes the payment fields into that order. *)
Lemma payment_completed_updates_order g (req : PaymentRequest.Body) w
    (collection : Collection) (_id : ObjectId) (order : Document) (payment : Square.Payment) :
  negb (truthy (PaymentRequest.sourceId req))
  || negb (truthy_number (PaymentRequest.amount req))
  || negb (truthy (PaymentRequest.orderId req)) = false ->
  square w (payment_request req) = Returned payment -> completed payment = true ->
  ordersCollection g = Some collection ->
  ObjectId_parse (text (PaymentRequest.orderId req)) = Some _id ->
  documents w collection !! _id = Some order ->
  exists w',
    run (post_api_payments_square ObjectId_parse g req) w =
    (json [("success", JBool true);
           ("paymentId", JString (Square.id payment));
           ("status", JString (Square.status payment));
           ("message", JString "Payment processed successfully")]%string,
     w') /\
    documents w' collection !! _id =
    Some ((<["paymentStatus" := SString "completed"]>
           (<["paymentId" := SString (Square.id payment)]>
            (<["paymentMethod" := SString "square"]>
             (<["updatedAt" := SDate (clock w)]> ∅))))%string ∪ order).
Proof.
  intros Hm Hsq Hc Hcoll Hid Horder.
  unfold post_api_payments_square, new_ObjectId. cbv zeta.
  rewrite Hm, Hcoll, Hid. cbn. rewrite Hsq. cbn. rewrite Hc. cbn.
  unfold store_updateOne. rewrite Horder. cbn.
  eexists. split; [reflexivity|]. cbn.
  rewrite decide_True by reflexivity. apply lookup_insert_eq.
Qed.

(** C7, as the code computes it.  With no store coordinates and no geocoding
    key configured, the destination is the fallback coordinate (35.0, -97.0)
    and its distance from the store at (35.8456, -103.3181) lies between
    360.45 and 360.46 miles. *)
Theorem fallback_distance env (address : string) w :
  STORE_LAT env = None -> STORE_LNG env = None -> GOOGLE_MAPS_API_KEY env = None ->
  Store.lat (STORE_LOCATION env) = 35.8456 /\
  Store.lng (STORE_LOCATION env) = -103.3181 /\
  exists coords : Geo.Coords,
    (run (geocodeAddress env address) w).1 = Some coords /\
    coords = {| Geo.lat := 35.0; Geo.lng := -97.0 |} /\
    360.45 <
      calculateDistance (Store.lat (STORE_LOCATION env)) (Store.lng (STORE_LOCATION env))
        (Geo.lat coords) (Geo.lng coords) < 360.46.
Proof.
  intros Hlat Hlng Hkey. unfold STORE_LOCATION. rewrite Hlat, Hlng. cbn [Store.lat Store.lng default].
  split; [reflexivity|]. split; [reflexivity|].
  exists {| Geo.lat := 35.0; Geo.lng := -97.0 |}.
  rewrite run_geocodeAddress, Hkey. cbn [truthy fst Geo.lat Geo.lng].
  split; [reflexivity|]. split; [reflexivity|].
  exact fallback_distance_enclosure.
Qed.

End Handlers.

(** ** The claims at sample inputs *)

Lemma calculateShippingCost_policy_witness :
  calculateShippingCost 10 (Some 150) = 0 /\
  rounds_half_up_to_cents
    (Rmin (baseRate SHIPPING_RATES + 10 * costPerMile SHIPPING_RATES) (maxRate SHIPPING_RATES))
    (calculateShippingCost 10 (Some 149.99)).
Proof.
  split.
  - apply (calculateShippingCost_policy 10 150). cbn. lra.
  - apply (calculateShippingCost_policy 10 149.99). cbn. lra.
Defined.

Lemma quote_invariant_witness :
  0 <= calculateShippingCost 90 None <= maxRate SHIPPING_RATES /\
  exists n : Z, calculateShippingCost 90 None = IZR n / 100.
Proof.
  apply (proj1 (proj2 quote_invariant) 90 None). lra.
Defined.

Lemma free_shipping_iff_threshold_witness :
  calculateShippingCost 10 (Some 150) = 0 <-> 150 >= freeShippingThreshold SHIPPING_RATES.
Proof.
  apply (free_shipping_iff_threshold 10 150). lra.
Defined.

Lemma shipping_rejects_before_quoting_witness :
  post_api_shipping_calculate (ObjectId := string) Sample.env_with_key
    {| ShippingRequest.address := Some "1 Main St"%string;
       ShippingRequest.city := Some "Tulsa"%string;
       ShippingRequest.state := Some "OK"%string;
       ShippingRequest.zipCode := None;
       ShippingRequest.country := None;
       ShippingRequest.subtotal := Some 20 |} =
  Ret (status_json 400 [("error", JString "Incomplete shipping address")]%string) /\
  (run (post_api_shipping_calculate Sample.env_with_key Sample.shipping_request)
     Sample.world).1 =
  status_json 400 [("error", JString "Unable to validate address")]%string.
Proof.
  split.
  - apply (shipping_rejects_before_quoting (ObjectId := string)). cbn. auto.
  - apply (shipping_rejects_before_quoting (ObjectId := string)
             Sample.env_with_key Sample.shipping_request); reflexivity.
Defined.



Lemma delete_product_statuses_witness :
  run (delete_api_products_id Sample.parse connected Sample.absent_id) Sample.world =
  (status_json 404 [("error", JString "Product not found")]%string, Sample.world) /\
  exists w',
    run (delete_api_products_id Sample.parse connected Sample.product_id) Sample.world =
    ({| status := 200; body := [("message", JString "Product deleted successfully")]%string |},
     w') /\
    documents w' products = delete Sample.product_id (documents Sample.world products) /\
    documents w' products !! Sample.product_id = None /\
    forall c, c <> products -> documents w' c = documents Sample.world c.
Proof.
  split.
  - apply (proj1 (proj2 (delete_product_statuses Sample.parse connected products
                           Sample.absent_id Sample.world eq_refl))
             Sample.absent_id); reflexivity.
  - apply (proj2 (proj2 (delete_product_statuses Sample.parse connected products
                           Sample.product_id Sample.world eq_refl))
             Sample.product_id Sample.a_product); reflexivity.
Defined.

(** C8 as stated fails: before the store is connected an invalid id is
    answered 503, not 400. *)
Lemma delete_without_store_is_503 :
  ObjectId_isValid Sample.parse "not-an-id" = false /\
  status (run (delete_api_products_id Sample.parse not_connected "not-an-id")
            Sample.world).1 = 503%nat.
Proof. split; reflexivity. Qed.

Lemma payment_failure_leaves_order_witness :
  run (post_api_payments_square Sample.parse connected Sample.payment) Sample.world =
  (status_json 400 [("success", JBool false); ("message", JString "Payment FAILED")]%string,
   Sample.world).
Proof.
  assert (Hpresent :
    negb (truthy (PaymentRequest.sourceId Sample.payment))
    || negb (truthy_number (PaymentRequest.amount Sample.payment))
    || negb (truthy (PaymentRequest.orderId Sample.payment)) = false).
  { cbn. destruct (Req_dec_T 20 0); [lra | reflexivity]. }
  apply (proj1 (proj2 (payment_failure_leaves_order Sample.parse connected Sample.payment
                         Sample.world))
           Hpresent {| Square.id := "p1"; Square.status := "FAILED" |}%string);
    reflexivity.
Defined.

(** C6. A request without [sourceId] is answered 400 with an [error] field
    and no [success] field, where the handler's two other failure answers
    carry success: false. *)
Lemma payment_missing_fields_without_success :
  let response :=
    (run (post_api_payments_square Sample.parse connected Sample.payment_without_source)
       Sample.world).1 in
  status response = 400%nat /\
  body response = [("error", JString "Missing required payment fields")]%string /\
  field "success" (body response) = None.
Proof. repeat split; reflexivity. Qed.

Lemma fallback_distance_witness :
  Store.lat (STORE_LOCATION Sample.env_without_key) = 35.8456 /\
  Store.lng (STORE_LOCATION Sample.env_without_key) = -103.3181 /\
  exists coords : Geo.Coords,
    (run (geocodeAddress Sample.env_without_key "1 Main St, Tulsa, OK 74101, USA")
       Sample.world).1 = Some coords /\
    coords = {| Geo.lat := 35.0; Geo.lng := -97.0 |} /\
    360.45 <
      calculateDistance (Store.lat (STORE_LOCATION Sample.env_without_key))
        (Store.lng (STORE_LOCATION Sample.env_without_key))
        (Geo.lat coords) (Geo.lng coords) < 360.46.
Proof.
  apply (fallback_distance (ObjectId := string)); reflexivity.
Defined.

(** C7 as stated fails: the distance differs from 353 miles by more than 2%
    of 353. *)
Lemma fallback_distance_is_not_353 :
  Rabs (calculateDistance 35.8456 (-103.3181) 35.0 (-97.0) - 353) > 353 * 2 / 100.
Proof.
  pose proof fallback_distance_enclosure as [Hlo Hhi].
  rewrite Rabs_right; lra.
Qed.

(** * Further properties of the code *)

(** ** calculateDistance: lines 42-52 *)

(** In exact arithmetic antipodal points are half the circumference apart:
    the distance from (lat, lon) to (-lat, lon + 180) is 3959·π. *)
Lemma calculateDistance_antipodal (lat lon : R) :
  calculateDistance lat lon (- lat) (lon + 180) = 3959 * PI.
Proof.
  rewrite calculateDistance_asin.
  assert (Ha : haversine_a lat lon (- lat) (lon + 180) = 1).
  { unfold haversine_a.
    replace (radians (- lat - lat) / 2) with (- radians lat) by (unfold radians; field).
    replace (radians (- lat)) with (- radians lat) by (unfold radians; field).
    replace (radians (lon + 180 - lon) / 2) with (PI / 2) by (unfold radians; field).
    rewrite sin_neg, cos_neg, sin_PI2, <- Rsqr_neg.
    pose proof (sin2_cos2 (radians lat)) as H. unfold Rsqr in *. lra. }
  rewrite Ha, sqrt_1, asin_1. field.
Qed.

(** ** calculateShippingCost: lines 78-93 *)

Lemma Rmin_le_compat (x y c : R) : x <= y -> Rmin x c <= Rmin y c.
Proof. intros Hxy. apply Rmin_glb; [pose proof (Rmin_l x c); lra | apply Rmin_r]. Qed.

(** X6. A longer distance never costs less, whatever the subtotal. *)
Theorem calculateShippingCost_monotone (d1 d2 : R) (s : option R) :
  d1 <= d2 -> calculateShippingCost d1 s <= calculateShippingCost d2 s.
Proof.
  intros Hd.
  destruct (number_ge s (freeShippingThreshold SHIPPING_RATES)) eqn:Hs.
  - rewrite !cost_free by assumption. lra.
  - rewrite !cost_charged by assumption.
    assert (Hmin : Rmin (5 + d1 * / 2) 50 * 100 <= Rmin (5 + d2 * / 2) 50 * 100).
    { pose proof (Rmin_le_compat (5 + d1 * / 2) (5 + d2 * / 2) 50 ltac:(lra)). lra. }
    apply round_le in Hmin. lra.
Qed.

(** X8. For a distance d >= 0 a larger subtotal never costs more, and no
    subtotal costs more than an absent one. *)
Theorem calculateShippingCost_subtotal_antitone (d s1 s2 : R) :
  d >= 0 -> s1 <= s2 ->
  calculateShippingCost d (Some s2) <= calculateShippingCost d (Some s1) /\
  calculateShippingCost d (Some s1) <= calculateShippingCost d None.
Proof.
  intros Hd%Rge_le Hs.
  pose proof (cost_range d (Some s1) Hd) as [H1 _].
  assert (Hcharged : forall x, x < 150 ->
            calculateShippingCost d (Some x) = calculateShippingCost d None).
  { intros x Hx. rewrite !cost_charged; [reflexivity | reflexivity |].
    cbn. destruct (Rge_dec x 150.00); [lra | reflexivity]. }
  assert (Hfree : forall x, 150 <= x -> calculateShippingCost d (Some x) = 0).
  { intros x Hx. apply cost_free, number_ge_true. exists x. split; [reflexivity|].
    cbn. lra. }
  pose proof (cost_range d None Hd) as [HN _].
  destruct (Rlt_dec s2 150) as [Hlt|Hge].
  - rewrite (Hcharged s2 Hlt), (Hcharged s1) by lra. lra.
  - rewrite (Hfree s2) by lra. split; [exact H1|].
    destruct (Rlt_dec s1 150) as [Hlt1|Hge1].
    + rewrite (Hcharged s1 Hlt1). lra.
    + rewrite (Hfree s1) by lra. exact HN.
Qed.

(** ** The handlers *)

Section FurtherHandlers.

Context {ObjectId : Type} `{Countable ObjectId}.
Variable ObjectId_parse : string -> option ObjectId.

Implicit Types (w : World ObjectId) (env : ProcessEnv) (g : Globals).

Lemma documents_set_same (c : Collection) (m : gmap ObjectId Document) w :
  documents (set_documents c m w) c = m.
Proof. cbn. now rewrite decide_True. Qed.

Lemma documents_set_other (c c' : Collection) (m : gmap ObjectId Document) w :
  c' <> c -> documents (set_documents c m w) c' = documents w c'.
Proof. intros Hc. cbn. now rewrite decide_False. Qed.

(** What [geocodeAddress] leaves behind: the world as it was, or with one
    more line on the console. *)
Lemma geocodeAddress_world env (address : string) w :
  exists lines,
    (run (geocodeAddress env address) w).2 =
    {| geocoding := geocoding w; square := square w; documents := documents w;
       clock := clock w; output := output w ++ lines |}.
Proof.
  rewrite run_geocodeAddress.
  destruct (truthy (GOOGLE_MAPS_API_KEY env)).
  - destruct (geocoding w address _) as [[|location rest]|message].
    + exists []. cbn. rewrite app_nil_r. now destruct w.
    + exists []. cbn. rewrite app_nil_r. now destruct w.
    + eexists. reflexivity.
  - eexists. reflexivity.
Qed.

(** X10. For a body whose address fields are strings or absent and whose
    subtotal is a number or absent, and whatever the collaborators answer,
    the shipping handler answers 200 or 400 and leaves the store, the clock
    and the collaborators as they were; it can only add lines to the
    console. *)
Theorem shipping_leaves_store env (req : ShippingRequest.Body) w :
  (status (run (post_api_shipping_calculate env req) w).1 = 200%nat \/
   status (run (post_api_shipping_calculate env req) w).1 = 400%nat) /\
  exists lines,
    (run (post_api_shipping_calculate env req) w).2 =
    {| geocoding := geocoding w; square := square w; documents := documents w;
       clock := clock w; output := output w ++ lines |}.
Proof.
  rewrite run_shipping.
  destruct (truthy (ShippingRequest.address req) && truthy (ShippingRequest.city req)
            && truthy (ShippingRequest.state req) && truthy (ShippingRequest.zipCode req)).
  - destruct (geocodeAddress_world env (fullAddress req) w) as [lines Hw].
    destruct (run (geocodeAddress env (fullAddress req)) w) as [[coords|] w1];
      cbn in *; (split; [auto|]); exists lines; exact Hw.
  - split; [right; reflexivity|]. exists []. cbn. rewrite app_nil_r. now destruct w.
Qed.

Lemma round_Z_unique (x : R) (n : Z) :
  IZR n - / 2 <= x < IZR n + / 2 -> Math.round_Z x = n.
Proof. intros Hn. unfold Math.round_Z. apply Zfloor_eq. lra. Qed.

(** X11. With no geocoding key and no store coordinates configured, every
    request with a complete address is quoted for the fallback coordinate,
    whatever the address says: 360.5 miles, and 50.00, the maximum rate,
    unless the subtotal reaches the threshold. *)
Theorem fallback_quote_is_max_rate env (req : ShippingRequest.Body) w :
  STORE_LAT env = None -> STORE_LNG env = None -> GOOGLE_MAPS_API_KEY env = None ->
  truthy (ShippingRequest.address req) = true -> truthy (ShippingRequest.city req) = true ->
  truthy (ShippingRequest.state req) = true -> truthy (ShippingRequest.zipCode req) = true ->
  number_ge (ShippingRequest.subtotal req) (freeShippingThreshold SHIPPING_RATES) = false ->
  let response := (run (post_api_shipping_calculate env req) w).1 in
  status response = 200%nat /\
  field "distance" (body response) = Some (JNumber 360.5) /\
  field "shippingCost" (body response) = Some (JNumber 50.00) /\
  field "message" (body response) = Some (JString "Shipping for 360 miles").
Proof.
  intros Hlat Hlng Hkey Ha Hc Hs Hz Hsub. cbv zeta.
  rewrite run_shipping, Ha, Hc, Hs, Hz, run_geocodeAddress, Hkey.
  cbn [andb truthy fst]. unfold quote, STORE_LOCATION. rewrite Hlat, Hlng.
  cbn [Store.lat Store.lng default Geo.lat Geo.lng].
  pose proof fallback_distance_enclosure as [Hlo Hhi].
  set (distance := calculateDistance 35.8456 (-103.3181) 35.0 (-97.0)) in *.
  assert (Hcost : calculateShippingCost distance (ShippingRequest.subtotal req) = 50.00).
  { rewrite cost_charged by assumption. rewrite Rmin_right by lra.
    rewrite (round_unique (50 * 100) 5000) by lra. lra. }
  assert (Htenths : Math.round (distance * 10) / 10 = 360.5).
  { rewrite (round_unique (distance * 10) 3605) by lra. lra. }
  assert (Hmiles : Math.round_Z distance = 360%Z) by (apply round_Z_unique; lra).
  cbv zeta. rewrite Hcost, Htenths, Hmiles.
  cbn [json status body field String.eqb Ascii.eqb Bool.eqb].
  destruct (Req_dec_T 50.00 0) as [Hzero|_]; [lra|].
  repeat split; reflexivity.
Qed.

(** The answer to a payment the processor accepted. *)
Lemma run_payment_completed g (req : PaymentRequest.Body) w (payment : Square.Payment) :
  negb (truthy (PaymentRequest.sourceId req))
  || negb (truthy_number (PaymentRequest.amount req))
  || negb (truthy (PaymentRequest.orderId req)) = false ->
  square w (payment_request req) = Returned payment -> completed payment = true ->
  run (post_api_payments_square ObjectId_parse g req) w =
  let success :=
    json [("success", JBool true);
          ("paymentId", JString (Square.id payment));
          ("status", JString (Square.status payment));
          ("message", JString "Payment processed successfully")]%string in
  match ordersCollection g with
  | None => (success, w)
  | Some collection =>
    match new_ObjectId ObjectId_parse (text (PaymentRequest.orderId req)) with
    | Threw message =>
      (status_json 500
         [("success", JBool false);
          ("error", JString (if String.eqb message "" then "Payment processing failed"
                             else message))]%string,
       print error ["Payment error:"%string; message] w)
    | Returned _id =>
      (success,
       (store_updateOne collection _id
          (<["paymentStatus" := SString "completed"]>
           (<["paymentId" := SString (Square.id payment)]>
            (<["paymentMethod" := SString "square"]>
             (<["updatedAt" := SDate (clock w)]> ∅))))%string w).2)
    end
  end.
Proof.
  intros Hm Hsq Hc. unfold post_api_payments_square. cbv zeta.
  rewrite Hm. cbn. rewrite Hsq. cbn. rewrite Hc.
  destruct (ordersCollection g) as [collection|]; [|reflexivity].
  destruct (new_ObjectId ObjectId_parse (text (PaymentRequest.orderId req)))
    as [_id|message]; cbn; [|reflexivity].
  destruct (store_updateOne collection _id _ w) as [n w']. reflexivity.
Qed.

(** X12. A payment the processor accepted (COMPLETED or APPROVED) that meets
    no order to update changes nothing in the store: it is still answered 200
    with success: true when the orders collection is not connected or holds no
    order with that id, and 500 with success: false when the order id is no
    valid identifier. *)
Theorem payment_accepted_without_order g (req : PaymentRequest.Body) w
    (payment : Square.Payment) :
  negb (truthy (PaymentRequest.sourceId req))
  || negb (truthy_number (PaymentRequest.amount req))
  || negb (truthy (PaymentRequest.orderId req)) = false ->
  square w (payment_request req) = Returned payment -> completed payment = true ->
  let answer := run (post_api_payments_square ObjectId_parse g req) w in
  (ordersCollection g = None ->
   status answer.1 = 200%nat /\ field "success" (body answer.1) = Some (JBool true) /\
   answer.2 = w) /\
  (forall (collection : Collection) (_id : ObjectId),
     ordersCollection g = Some collection ->
     ObjectId_parse (text (PaymentRequest.orderId req)) = Some _id ->
     documents w collection !! _id = None ->
     status answer.1 = 200%nat /\ field "success" (body answer.1) = Some (JBool true) /\
     answer.2 = w) /\
  (forall collection : Collection,
     ordersCollection g = Some collection ->
     ObjectId_parse (text (PaymentRequest.orderId req)) = None ->
     status answer.1 = 500%nat /\ field "success" (body answer.1) = Some (JBool false) /\
     documents answer.2 = documents w).
Proof.
  intros Hm Hsq Hc. cbv zeta. rewrite (run_payment_completed g req w payment Hm Hsq Hc).
  cbv zeta. split; [|split].
  - intros ->. repeat split.
  - intros collection _id -> Hid Habsent. unfold new_ObjectId, store_updateOne.
    rewrite Hid, Habsent. repeat split.
  - intros collection -> Hid. unfold new_ObjectId. rewrite Hid. repeat split.
Qed.

(** X13. A payment the processor accepted for a stored order writes
    paymentStatus, paymentId, paymentMethod and updatedAt into that order,
    keeps its other fields, and leaves every other order and collection as
    it was. *)
Theorem payment_accepted_marks_order g (req : PaymentRequest.Body) w
    (collection : Collection) (_id : ObjectId) (order : Document) (payment : Square.Payment) :
  negb (truthy (PaymentRequest.sourceId req))
  || negb (truthy_number (PaymentRequest.amount req))
  || negb (truthy (PaymentRequest.orderId req)) = false ->
  square w (payment_request req) = Returned payment -> completed payment = true ->
  ordersCollection g = Some collection ->
  ObjectId_parse (text (PaymentRequest.orderId req)) = Some _id ->
  documents w collection !! _id = Some order ->
  exists (w' : World ObjectId) (order' : Document),
    (run (post_api_payments_square ObjectId_parse g req) w).2 = w' /\
    status (run (post_api_payments_square ObjectId_parse g req) w).1 = 200%nat /\
    documents w' collection !! _id = Some order' /\
    order' !! "paymentStatus"%string = Some (SString "completed") /\
    order' !! "paymentId"%string = Some (SString (Square.id payment)) /\
    order' !! "paymentMethod"%string = Some (SString "square") /\
    order' !! "updatedAt"%string = Some (SDate (clock w)) /\
    (forall key : string,
       key <> "paymentStatus"%string -> key <> "paymentId"%string ->
       key <> "paymentMethod"%string -> key <> "updatedAt"%string ->
       order' !! key = order !! key) /\
    (forall other : ObjectId, other <> _id ->
       documents w' collection !! other = documents w collection !! other) /\
    (forall c : Collection, c <> collection -> documents w' c = documents w c).
Proof.
  intros Hm Hsq Hc Hcoll Hid Horder.
  rewrite (run_payment_completed g req w payment Hm Hsq Hc). cbv zeta.
  unfold new_ObjectId, store_updateOne. rewrite Hcoll, Hid, Horder.
  eexists. eexists. split; [reflexivity|]. split; [reflexivity|].
  cbn [snd]. rewrite documents_set_same.
  split; [apply lookup_insert_eq|].
  split; [apply lookup_union_Some_l; now simplify_map_eq|].
  split; [apply lookup_union_Some_l; now simplify_map_eq|].
  split; [apply lookup_union_Some_l; now simplify_map_eq|].
  split; [apply lookup_union_Some_l; now simplify_map_eq|].
  split; [|split].
  - intros key H1 H2 H3 H4. apply lookup_union_r. unfold Document.
    rewrite !lookup_insert_ne by congruence. apply lookup_empty.
  - intros other Hother. now rewrite lookup_insert_ne.
  - intros c Hne. now apply documents_set_other.
Qed.

(** X14. After any DELETE /api/products/:id with a well-formed id, repeating
    the request is answered 404 and changes nothing. *)
Theorem delete_product_twice g (collection : Collection) (id : string) (_id : ObjectId) w :
  productsCollection g = Some collection -> ObjectId_parse id = Some _id ->
  let w1 := (run (delete_api_products_id ObjectId_parse g id) w).2 in
  run (delete_api_products_id ObjectId_parse g id) w1 =
  (status_json 404 [("error", JString "Product not found")]%string, w1).
Proof.
  intros Hconnected Hid. cbv zeta.
  rewrite (run_delete ObjectId_parse g id w), Hconnected, Hid.
  destruct (documents w collection !! _id) as [product|] eqn:Hproduct; cbn [snd].
  - rewrite run_delete, Hconnected, Hid, documents_set_same, lookup_delete_eq. reflexivity.
  - now rewrite run_delete, Hconnected, Hid, Hproduct.
Qed.

Lemma run_delete_order g (id : string) w :
  run (delete_api_orders_id ObjectId_parse g id) w =
  match ordersCollection g with
  | None => (status_json 503 [("error", JString "Database not connected")]%string, w)
  | Some collection =>
    match ObjectId_parse id with
    | None => (status_json 400 [("error", JString "Invalid order ID")]%string, w)
    | Some _id =>
      match documents w collection !! _id with
      | Some _ =>
        (json [("message", JString "Order deleted")]%string,
         set_documents collection (delete _id (documents w collection)) w)
      | None => (status_json 404 [("error", JString "Order not found")]%string, w)
      end
    end
  end.
Proof.
  unfold delete_api_orders_id, ObjectId_isValid, new_ObjectId.
  destruct (ordersCollection g) as [collection|]; [|reflexivity].
  destruct (ObjectId_parse id) as [_id|]; [|reflexivity].
  cbn. unfold store_deleteOne.
  destruct (documents w collection !! _id); reflexivity.
Qed.

Lemma run_put_status g (id status : string) w :
  run (put_api_orders_id_status ObjectId_parse g id status) w =
  match ordersCollection g with
  | None => (status_json 503 [("error", JString "Database not connected")]%string, w)
  | Some collection =>
    match ObjectId_parse id with
    | None => (status_json 400 [("error", JString "Invalid order ID")]%string, w)
    | Some _id =>
      match documents w collection !! _id with
      | Some order =>
        (json [("message", JString "Order status updated")]%string,
         set_documents collection
           (<[_id := (<["status" := SString status]>
                       (<["updatedAt" := SDate (clock w)]> ∅))%string ∪ order]>
              (documents w collection)) w)
      | None => (status_json 404 [("error", JString "Order not found")]%string, w)
      end
    end
  end.
Proof.
  unfold put_api_orders_id_status, ObjectId_isValid, new_ObjectId.
  destruct (ordersCollection g) as [collection|]; [|reflexivity].
  destruct (ObjectId_parse id) as [_id|]; [|reflexivity].
  cbn. unfold store_updateOne.
  destruct (documents w collection !! _id); reflexivity.
Qed.

Lemma run_put_product g (id : string) (req : ProductRequest.Body) w :
  run (put_api_products_id ObjectId_parse g id req) w =
  match productsCollection g with
  | None => (status_json 503 [("error", JString "Database not connected")]%string, w)
  | Some collection =>
    match ObjectId_parse id with
    | None => (status_json 400 [("error", JString "Invalid product ID")]%string, w)
    | Some _id =>
      match documents w collection !! _id with
      | Some product =>
        (json [("message", JString "Product updated successfully")]%string,
         set_documents collection
           (<[_id := updateData req ∪ product]> (documents w collection)) w)
      | None => (status_json 404 [("error", JString "Product not found")]%string, w)
      end
    end
  end.
Proof.
  unfold put_api_products_id, ObjectId_isValid, new_ObjectId.
  destruct (productsCollection g) as [collection|]; [|reflexivity].
  destruct (ObjectId_parse id) as [_id|]; [|reflexivity].
  cbn. unfold store_updateOne.
  destruct (documents w collection !! _id); reflexivity.
Qed.

(** The fields of [updateData]: a truthy name, description or emoji, and a
    price whenever one is given. *)
Lemma updateData_lookup (req : ProductRequest.Body) (key : string) :
  updateData req !! key =
  if String.eqb key "name" then
    if truthy (ProductRequest.name req) then Some (SString (text (ProductRequest.name req)))
    else None
  else if String.eqb key "description" then
    if truthy (ProductRequest.description req)
    then Some (SString (text (ProductRequest.description req))) else None
  else if String.eqb key "price" then SNumber <$> ProductRequest.price req
  else if String.eqb key "emoji" then
    if truthy (ProductRequest.emoji req) then Some (SString (text (ProductRequest.emoji req)))
    else None
  else None.
Proof.
  unfold updateData, Document. cbv zeta.
  destruct (String.eqb_spec key "name") as [->|Hname].
  { destruct (truthy (ProductRequest.name req)), (truthy (ProductRequest.description req)),
      (ProductRequest.price req), (truthy (ProductRequest.emoji req));
      now simplify_map_eq. }
  destruct (String.eqb_spec key "description") as [->|Hdescription].
  { destruct (truthy (ProductRequest.name req)), (truthy (ProductRequest.description req)),
      (ProductRequest.price req), (truthy (ProductRequest.emoji req));
      now simplify_map_eq. }
  destruct (String.eqb_spec key "price") as [->|Hprice].
  { destruct (truthy (ProductRequest.name req)), (truthy (ProductRequest.description req)),
      (ProductRequest.price req), (truthy (ProductRequest.emoji req));
      now simplify_map_eq. }
  destruct (String.eqb_spec key "emoji") as [->|Hemoji].
  { destruct (truthy (ProductRequest.name req)), (truthy (ProductRequest.description req)),
      (ProductRequest.price req), (truthy (ProductRequest.emoji req));
      now simplify_map_eq. }
  destruct (truthy (ProductRequest.name req)), (truthy (ProductRequest.description req)),
    (ProductRequest.price req), (truthy (ProductRequest.emoji req));
    rewrite ?lookup_insert_ne by congruence; apply lookup_empty.
Qed.

(** X15. DELETE /api/orders/:id: before the orders collection is connected
    the answer is 503, and for an invalid id 400, both without any call; a
    well-formed id of no order is answered 404 and changes nothing; a
    well-formed id of an order removes that order and nothing else, and is
    answered 200. *)
Theorem delete_order_statuses g (id : string) w :
  (ordersCollection g = None ->
   delete_api_orders_id ObjectId_parse g id =
   Ret (status_json 503 [("error", JString "Database not connected")]%string)) /\
  (forall collection : Collection, ordersCollection g = Some collection ->
   ObjectId_isValid ObjectId_parse id = false ->
   delete_api_orders_id ObjectId_parse g id =
   Ret (status_json 400 [("error", JString "Invalid order ID")]%string)) /\
  (forall (collection : Collection) (_id : ObjectId),
   ordersCollection g = Some collection -> ObjectId_parse id = Some _id ->
   documents w collection !! _id = None ->
   run (delete_api_orders_id ObjectId_parse g id) w =
   (status_json 404 [("error", JString "Order not found")]%string, w)) /\
  (forall (collection : Collection) (_id : ObjectId) (order : Document),
   ordersCollection g = Some collection -> ObjectId_parse id = Some _id ->
   documents w collection !! _id = Some order ->
   exists w',
     run (delete_api_orders_id ObjectId_parse g id) w =
     (json [("message", JString "Order deleted")]%string, w') /\
     documents w' collection = delete _id (documents w collection) /\
     forall c, c <> collection -> documents w' c = documents w c).
Proof.
  split; [|split; [|split]].
  - intros Hnone. unfold delete_api_orders_id. now rewrite Hnone.
  - intros collection Hconnected Hinvalid.
    unfold delete_api_orders_id. now rewrite Hconnected, Hinvalid.
  - intros collection _id Hconnected Hid Habsent.
    now rewrite run_delete_order, Hconnected, Hid, Habsent.
  - intros collection _id order Hconnected Hid Hpresent.
    rewrite run_delete_order, Hconnected, Hid, Hpresent.
    eexists. split; [reflexivity|]. split; [apply documents_set_same|].
    intros c Hc. now apply documents_set_other.
Qed.

(** X16. PUT /api/orders/:id/status: 503 before the orders collection is
    connected and 400 for an invalid id, both without any call; 404 and no
    change for a well-formed id of no order; for a stored order the status
    becomes the one sent and updatedAt the current time, while its other
    fields, the other orders and the other collections stay as they were. *)
Theorem put_order_status_effect g (id status : string) w :
  (ordersCollection g = None ->
   put_api_orders_id_status ObjectId_parse g id status =
   Ret (status_json 503 [("error", JString "Database not connected")]%string)) /\
  (forall collection : Collection, ordersCollection g = Some collection ->
   ObjectId_isValid ObjectId_parse id = false ->
   put_api_orders_id_status ObjectId_parse g id status =
   Ret (status_json 400 [("error", JString "Invalid order ID")]%string)) /\
  (forall (collection : Collection) (_id : ObjectId),
   ordersCollection g = Some collection -> ObjectId_parse id = Some _id ->
   documents w collection !! _id = None ->
   run (put_api_orders_id_status ObjectId_parse g id status) w =
   (status_json 404 [("error", JString "Order not found")]%string, w)) /\
  (forall (collection : Collection) (_id : ObjectId) (order : Document),
   ordersCollection g = Some collection -> ObjectId_parse id = Some _id ->
   documents w collection !! _id = Some order ->
   exists (w' : World ObjectId) (order' : Document),
     run (put_api_orders_id_status ObjectId_parse g id status) w =
     (json [("message", JString "Order status updated")]%string, w') /\
     documents w' collection !! _id = Some order' /\
     order' !! "status"%string = Some (SString status) /\
     order' !! "updatedAt"%string = Some (SDate (clock w)) /\
     (forall key : string, key <> "status"%string -> key <> "updatedAt"%string ->
        order' !! key = order !! key) /\
     (forall other : ObjectId, other <> _id ->
        documents w' collection !! other = documents w collection !! other) /\
     (forall c, c <> collection -> documents w' c = documents w c)).
Proof.
  split; [|split; [|split]].
  - intros Hnone. unfold put_api_orders_id_status. now rewrite Hnone.
  - intros collection Hconnected Hinvalid.
    unfold put_api_orders_id_status. now rewrite Hconnected, Hinvalid.
  - intros collection _id Hconnected Hid Habsent.
    now rewrite run_put_status, Hconnected, Hid, Habsent.
  - intros collection _id order Hconnected Hid Hpresent.
    rewrite run_put_status, Hconnected, Hid, Hpresent.
    eexists. eexists. split; [reflexivity|]. rewrite documents_set_same.
    split; [apply lookup_insert_eq|].
    split; [apply lookup_union_Some_l; now simplify_map_eq|].
    split; [apply lookup_union_Some_l; now simplify_map_eq|].
    split; [|split].
    + intros key H1 H2. apply lookup_union_r. unfold Document.
      rewrite !lookup_insert_ne by congruence. apply lookup_empty.
    + intros other Hother. now rewrite lookup_insert_ne.
    + intros c Hc. now apply documents_set_other.
Qed.

(** X17. Two status updates of a stored order in a row leave the order with
    the status sent last, and with every field other than status and
    updatedAt as it was before the first. *)
Theorem put_order_status_last_wins g (collection : Collection) (id first last : string)
    (_id : ObjectId) (order : Document) w :
  ordersCollection g = Some collection -> ObjectId_parse id = Some _id ->
  documents w collection !! _id = Some order ->
  let w1 := (run (put_api_orders_id_status ObjectId_parse g id first) w).2 in
  let w2 := (run (put_api_orders_id_status ObjectId_parse g id last) w1).2 in
  status (run (put_api_orders_id_status ObjectId_parse g id last) w1).1 = 200%nat /\
  exists order' : Document,
    documents w2 collection !! _id = Some order' /\
    order' !! "status"%string = Some (SString last) /\
    (forall key : string, key <> "status"%string -> key <> "updatedAt"%string ->
       order' !! key = order !! key).
Proof.
  intros Hconnected Hid Hpresent. cbv zeta.
  rewrite (run_put_status g id first w), Hconnected, Hid, Hpresent. cbn [snd].
  rewrite run_put_status, Hconnected, Hid, documents_set_same, lookup_insert_eq.
  split; [reflexivity|]. cbn [snd]. rewrite documents_set_same.
  eexists. split; [apply lookup_insert_eq|].
  split; [apply lookup_union_Some_l; now simplify_map_eq|].
  intros key H1 H2. unfold Document.
  rewrite lookup_union_r.
  - apply lookup_union_r.
    rewrite !lookup_insert_ne by congruence. apply lookup_empty.
  - rewrite !lookup_insert_ne by congruence. apply lookup_empty.
Qed.

(** X18. PUT /api/products/:id on a stored product, with a body that names
    at least one usable field: a non-empty name, description or emoji and any
    given price (0 included) replace the stored values; an absent or empty
    name, description or emoji and an absent price keep them; every other
    field and every other product stays as it was.  A well-formed id of no
    product is answered 404 and changes nothing. *)
Theorem put_product_effect g (collection : Collection) (id : string) (_id : ObjectId)
    (req : ProductRequest.Body) w :
  productsCollection g = Some collection -> ObjectId_parse id = Some _id ->
  updateData req <> ∅ ->
  (documents w collection !! _id = None ->
   run (put_api_products_id ObjectId_parse g id req) w =
   (status_json 404 [("error", JString "Product not found")]%string, w)) /\
  (forall product : Document, documents w collection !! _id = Some product ->
   exists (w' : World ObjectId) (product' : Document),
     run (put_api_products_id ObjectId_parse g id req) w =
     (json [("message", JString "Product updated successfully")]%string, w') /\
     documents w' collection !! _id = Some product' /\
     product' !! "name"%string =
       (if truthy (ProductRequest.name req)
        then Some (SString (text (ProductRequest.name req)))
        else product !! "name"%string) /\
     product' !! "description"%string =
       (if truthy (ProductRequest.description req)
        then Some (SString (text (ProductRequest.description req)))
        else product !! "description"%string) /\
     product' !! "price"%string =
       (match ProductRequest.price req with
        | Some price => Some (SNumber price)
        | None => product !! "price"%string
        end) /\
     product' !! "emoji"%string =
       (if truthy (ProductRequest.emoji req)
        then Some (SString (text (ProductRequest.emoji req)))
        else product !! "emoji"%string) /\
     (forall key : string,
        key <> "name"%string -> key <> "description"%string ->
        key <> "price"%string -> key <> "emoji"%string ->
        product' !! key = product !! key) /\
     (forall other : ObjectId, other <> _id ->
        documents w' collection !! other = documents w collection !! other) /\
     (forall c, c <> collection -> documents w' c = documents w c)).
Proof.
  intros Hconnected Hid _. split.
  - intros Habsent. now rewrite run_put_product, Hconnected, Hid, Habsent.
  - intros product Hpresent.
    rewrite run_put_product, Hconnected, Hid, Hpresent.
    eexists. eexists. split; [reflexivity|]. rewrite documents_set_same.
    split; [apply lookup_insert_eq|].
    assert (Hfield : forall key : string,
              (updateData req ∪ product) !! key =
              match updateData req !! key with
              | Some v => Some v
              | None => product !! key
              end).
    { intros key. unfold Document in *. rewrite lookup_union.
      destruct (updateData req !! key), (product !! key); reflexivity. }
    rewrite !Hfield, !updateData_lookup. cbn [String.eqb Ascii.eqb Bool.eqb].
    split; [now destruct (truthy (ProductRequest.name req))|].
    split; [now destruct (truthy (ProductRequest.description req))|].
    split; [now destruct (ProductRequest.price req)|].
    split; [now destruct (truthy (ProductRequest.emoji req))|].
    split; [|split].
    + intros key H1 H2 H3 H4. rewrite Hfield, updateData_lookup.
      destruct (String.eqb_spec key "name"); [contradiction|].
      destruct (String.eqb_spec key "description"); [contradiction|].
      destruct (String.eqb_spec key "price"); [contradiction|].
      destruct (String.eqb_spec key "emoji"); [contradiction|].
      reflexivity.
    + intros other Hother. now rewrite lookup_insert_ne.
    + intros c Hc. now apply documents_set_other.
Qed.

End FurtherHandlers.

(** ** The further properties at sample inputs *)

Lemma calculateShippingCost_monotone_witness :
  calculateShippingCost 10 (Some 20) <= calculateShippingCost 30 (Some 20).
Proof. apply calculateShippingCost_monotone. lra. Defined.

Lemma calculateShippingCost_subtotal_antitone_witness :
  calculateShippingCost 10 (Some 200) <= calculateShippingCost 10 (Some 20) /\
  calculateShippingCost 10 (Some 20) <= calculateShippingCost 10 None.
Proof. apply calculateShippingCost_subtotal_antitone; lra. Defined.

Lemma fallback_quote_is_max_rate_witness :
  let response :=
    (run (post_api_shipping_calculate (ObjectId := string) Sample.env_without_key
            Sample.shipping_request) Sample.world).1 in
  status response = 200%nat /\
  field "distance" (body response) = Some (JNumber 360.5) /\
  field "shippingCost" (body response) = Some (JNumber 50.00) /\
  field "message" (body response) = Some (JString "Shipping for 360 miles").
Proof.
  apply (fallback_quote_is_max_rate (ObjectId := string)); reflexivity.
Defined.

Lemma sample_payment_fields_present (orderId : string) :
  negb (truthy (Some "cnon:card"%string)) || negb (truthy_number (Some 20))
  || negb (truthy (Some orderId)) = negb (truthy (Some orderId)).
Proof. cbn. destruct (Req_dec_T 20 0); [lra | reflexivity]. Qed.

Lemma payment_accepted_without_order_witness :
  (let answer :=
     run (post_api_payments_square Sample.parse not_connected Sample.payment_for_order)
       Sample.paying_world in
   status answer.1 = 200%nat /\ field "success" (body answer.1) = Some (JBool true) /\
   answer.2 = Sample.paying_world) /\
  (let answer :=
     run (post_api_payments_square Sample.parse connected Sample.payment_for_bad_id)
       Sample.paying_world in
   status answer.1 = 500%nat /\ field "success" (body answer.1) = Some (JBool false) /\
   documents answer.2 = documents Sample.paying_world).
Proof.
  split.
  - apply (proj1 (payment_accepted_without_order Sample.parse not_connected
                    Sample.payment_for_order Sample.paying_world
                    {| Square.id := "p2"; Square.status := "COMPLETED" |}%string
                    (sample_payment_fields_present Sample.order_id) eq_refl eq_refl)).
    reflexivity.
  - apply (proj2 (proj2 (payment_accepted_without_order Sample.parse connected
                           Sample.payment_for_bad_id Sample.paying_world
                           {| Square.id := "p2"; Square.status := "COMPLETED" |}%string
                           (sample_payment_fields_present "ORD-1700000000000")
                           eq_refl eq_refl))
             orders); reflexivity.
Defined.

Lemma payment_accepted_marks_order_witness :
  exists order' : gmap string Stored,
    documents
      (run (post_api_payments_square Sample.parse connected Sample.payment_for_order)
         Sample.paying_world).2 orders !! Sample.order_id = Some order' /\
    order' !! "paymentStatus"%string = Some (SString "completed") /\
    order' !! "customerName"%string = Some (SString "Ada").
Proof.
  destruct (payment_accepted_marks_order Sample.parse connected Sample.payment_for_order
              Sample.paying_world orders Sample.order_id Sample.an_order
              {| Square.id := "p2"; Square.status := "COMPLETED" |}%string
              (sample_payment_fields_present Sample.order_id) eq_refl eq_refl eq_refl
              eq_refl eq_refl)
    as (w' & order' & Hw & _ & Horder & Hstatus & _ & _ & _ & Hkeep & _).
  exists order'. rewrite Hw. split; [exact Horder|]. split; [exact Hstatus|].
  rewrite Hkeep by discriminate. reflexivity.
Defined.

Lemma delete_product_twice_witness :
  run (delete_api_products_id Sample.parse connected Sample.product_id)
    (run (delete_api_products_id Sample.parse connected Sample.product_id) Sample.world).2 =
  (status_json 404 [("error", JString "Product not found")]%string,
   (run (delete_api_products_id Sample.parse connected Sample.product_id) Sample.world).2).
Proof.
  apply (delete_product_twice Sample.parse connected products Sample.product_id
           Sample.product_id Sample.world); reflexivity.
Defined.

Lemma delete_order_statuses_witness :
  delete_api_orders_id Sample.parse connected "no-id" =
  Ret (status_json 400 [("error", JString "Invalid order ID")]%string) /\
  run (delete_api_orders_id Sample.parse connected Sample.absent_id) Sample.paying_world =
  (status_json 404 [("error", JString "Order not found")]%string, Sample.paying_world).
Proof.
  split.
  - apply (proj1 (proj2 (delete_order_statuses Sample.parse connected "no-id"
                           Sample.paying_world)) orders); reflexivity.
  - apply (proj1 (proj2 (proj2 (delete_order_statuses Sample.parse connected
                                  Sample.absent_id Sample.paying_world)))
             orders Sample.absent_id); reflexivity.
Defined.

Lemma put_order_status_effect_witness :
  exists order' : gmap string Stored,
    documents
      (run (put_api_orders_id_status Sample.parse connected Sample.order_id "shipped")
         Sample.paying_world).2 orders !! Sample.order_id = Some order' /\
    order' !! "status"%string = Some (SString "shipped") /\
    order' !! "customerName"%string = Some (SString "Ada").
Proof.
  destruct (proj2 (proj2 (proj2 (put_order_status_effect Sample.parse connected
                                   Sample.order_id "shipped" Sample.paying_world)))
              orders Sample.order_id Sample.an_order eq_refl eq_refl eq_refl)
    as (w' & order' & Hrun & Horder & Hstatus & _ & Hkeep & _).
  exists order'. rewrite Hrun. split; [exact Horder|]. split; [exact Hstatus|].
  rewrite Hkeep by discriminate. reflexivity.
Defined.

Lemma put_order_status_last_wins_witness :
  exists order' : gmap string Stored,
    documents
      (run (put_api_orders_id_status Sample.parse connected Sample.order_id "delivered")
         (run (put_api_orders_id_status Sample.parse connected Sample.order_id "shipped")
            Sample.paying_world).2).2 orders !! Sample.order_id = Some order' /\
    order' !! "status"%string = Some (SString "delivered").
Proof.
  destruct (put_order_status_last_wins Sample.parse connected orders Sample.order_id
              "shipped" "delivered" Sample.order_id Sample.an_order Sample.paying_world
              eq_refl eq_refl eq_refl)
    as (_ & order' & Horder & Hstatus & _).
  exists order'. split; [exact Horder | exact Hstatus].
Defined.

Lemma sample_update_not_empty : updateData Sample.product_update <> ∅.
Proof. cbn. apply insert_non_empty. Qed.

(** An empty name leaves the stored name; a price of 0 replaces the stored
    price. *)
Lemma put_product_effect_witness :
  exists product' : gmap string Stored,
    documents
      (run (put_api_products_id Sample.parse connected Sample.product_id
              Sample.product_update) Sample.world).2 products !! Sample.product_id =
    Some product' /\
    product' !! "name"%string = Some (SString "Vase") /\
    product' !! "price"%string = Some (SNumber 0).
Proof.
  destruct (proj2 (put_product_effect Sample.parse connected products Sample.product_id
                     Sample.product_id Sample.product_update Sample.world
                     eq_refl eq_refl sample_update_not_empty)
              Sample.a_product eq_refl)
    as (w' & product' & Hrun & Hproduct & Hname & _ & Hprice & _).
  exists product'. rewrite Hrun. split; [exact Hproduct|].
  split; [exact Hname | exact Hprice].
Defined.

(** * The estimator in binary64 *)

Section Binary64Claims.

Import Floats.

(** The distance from (12, 0) to (-12, 180) when [Math.sin] and [Math.cos]
    answer with the floats nearest the exact values: a rounds to
    1 + 2^-52, so 1 - a is negative, its square root is [NaN], and so is the
    distance. *)
Lemma near_antipodal_nan (Math : Binary64.MathLibrary) :
  Binary64.sin Math (-0x1.acee9f37bebd5p-3)%float = (-0x1.a9cd9ac4258f5p-3)%float ->
  Binary64.cos Math 0x1.acee9f37bebd5p-3%float = 0x1.f4cfc327a008p-1%float ->
  Binary64.cos Math (-0x1.acee9f37bebd5p-3)%float = 0x1.f4cfc327a008p-1%float ->
  Binary64.sin Math 0x1.921fb54442d18p+0%float = 1%float ->
  (forall y : float, Binary64.atan2 Math y nan = nan) ->
  Binary64.calculateDistance Math 12%float 0%float (-12)%float 180%float = nan.
Proof.
  intros Hs1 Hc1 Hc2 Hs2 Hatan2. unfold Binary64.calculateDistance.
  change ((-12 - 12) * Binary64.PI / 180 / 2)%float with (-0x1.acee9f37bebd5p-3)%float.
  change (12 * Binary64.PI / 180)%float with 0x1.acee9f37bebd5p-3%float.
  change (-12 * Binary64.PI / 180)%float with (-0x1.acee9f37bebd5p-3)%float.
  change ((180 - 0) * Binary64.PI / 180 / 2)%float with 0x1.921fb54442d18p+0%float.
  cbv zeta. rewrite Hs1, Hc1, Hc2, Hs2.
  change (PrimFloat.sqrt (1 - _))%float with nan.
  rewrite Hatan2. reflexivity.
Qed.

(** C1. At the float nearest 0.09 and a subtotal of 0 the code answers 5.05:
    the cost 5.045 (rounded down by the addition) times 100 rounds up to
    504.5 exactly, which [Math.round] takes to 505.  Rounding the cost
    half-up to cents gives 5.04, a cent less, whether the cost is taken in
    exact arithmetic or as the float the code holds. *)
Theorem calculateShippingCost_misrounds_in_binary64 :
  let d := 0x1.70a3d70a3d70ap-4%float in
  let x := (6485183463413514 * powerRZ 2 (-56))%R in
  Binary64.exact d = Some x /\
  (5 + d * 0.5)%float = 0x1.42e147ae147aep+2%float /\
  (0x1.42e147ae147aep+2 * 100)%float = 504.5%float /\
  Binary64.calculateShippingCost d (Some 0%float) = 0x1.4333333333333p+2%float /\
  Binary64.exact 0x1.4333333333333p+2%float = Some (5685794529555251 * powerRZ 2 (-50))%R /\
  (5685794529555251 * powerRZ 2 (-50) - 5.04 > 0.0099)%R /\
  rounds_half_up_to_cents
    (Rmin (baseRate SHIPPING_RATES + x * costPerMile SHIPPING_RATES) (maxRate SHIPPING_RATES))
    5.04 /\
  Binary64.exact 0x1.42e147ae147aep+2%float = Some (5680165030021038 * powerRZ 2 (-50))%R /\
  rounds_half_up_to_cents (5680165030021038 * powerRZ 2 (-50)) 5.04.
Proof.
  cbv zeta.
  split; [reflexivity|]. split; [reflexivity|]. split; [reflexivity|].
  split; [reflexivity|]. split; [reflexivity|].
  split; [|split; [|split; [reflexivity|]]].
  - change (powerRZ 2 (-50)) with (/ 2 ^ 50)%R. lra.
  - change (powerRZ 2 (-56)) with (/ 2 ^ 56)%R.
    exists 504%Z. cbn [baseRate costPerMile maxRate SHIPPING_RATES].
    split; [lra|]. rewrite Rmin_left by lra. lra.
  - change (powerRZ 2 (-50)) with (/ 2 ^ 50)%R.
    exists 504%Z. split; lra.
Qed.

(** C2. With [Math.sin] and [Math.cos] answering with the floats nearest the
    exact values and [atan2] of a [NaN] being [NaN], the code gives [NaN] for
    the distance from (12, 0) to (-12, 180); the haversine distance between
    these antipodal points is 3959·π. *)
Theorem calculateDistance_near_antipodal_in_binary64 (Math : Binary64.MathLibrary) :
  Binary64.sin Math (-0x1.acee9f37bebd5p-3)%float = (-0x1.a9cd9ac4258f5p-3)%float ->
  Binary64.cos Math 0x1.acee9f37bebd5p-3%float = 0x1.f4cfc327a008p-1%float ->
  Binary64.cos Math (-0x1.acee9f37bebd5p-3)%float = 0x1.f4cfc327a008p-1%float ->
  Binary64.sin Math 0x1.921fb54442d18p+0%float = 1%float ->
  (forall y : float, Binary64.atan2 Math y nan = nan) ->
  Binary64.calculateDistance Math 12%float 0%float (-12)%float 180%float = nan /\
  haversine 3959 12 0 (-12) 180 = (3959 * Rtrigo1.PI)%R.
Proof.
  intros Hs1 Hc1 Hc2 Hs2 Hatan2.
  split; [now apply near_antipodal_nan|].
  rewrite <- calculateDistance_haversine_eq.
  replace (-12)%R with (- 12)%R by lra. replace 180%R with (0 + 180)%R by lra.
  apply calculateDistance_antipodal.
Qed.

(** C3. Under the same conditions the distance from (12, 0) to (-12, 180) is
    not >= 0, and the quote built from it has a [NaN] distance and a [NaN]
    cost, which is not in [0, maxRate]. *)
Theorem quote_near_antipodal_in_binary64 (Math : Binary64.MathLibrary) :
  Binary64.sin Math (-0x1.acee9f37bebd5p-3)%float = (-0x1.a9cd9ac4258f5p-3)%float ->
  Binary64.cos Math 0x1.acee9f37bebd5p-3%float = 0x1.f4cfc327a008p-1%float ->
  Binary64.cos Math (-0x1.acee9f37bebd5p-3)%float = 0x1.f4cfc327a008p-1%float ->
  Binary64.sin Math 0x1.921fb54442d18p+0%float = 1%float ->
  (forall y : float, Binary64.atan2 Math y nan = nan) ->
  let distance := Binary64.calculateDistance Math 12%float 0%float (-12)%float 180%float in
  let shippingCost := Binary64.calculateShippingCost distance None in
  (0 <=? distance)%float = false /\
  (Binary64.round (distance * 10) / 10)%float = nan /\
  shippingCost = nan /\
  (0 <=? shippingCost)%float = false /\
  (shippingCost <=? 50)%float = false.
Proof.
  intros Hs1 Hc1 Hc2 Hs2 Hatan2. cbv zeta.
  rewrite (near_antipodal_nan Math Hs1 Hc1 Hc2 Hs2 Hatan2).
  repeat split; reflexivity.
Qed.

End Binary64Claims.

Section Binary64Samples.

Import Floats.

Lemma calculateDistance_near_antipodal_in_binary64_witness :
  Binary64.calculateDistance Sample.math 12%float 0%float (-12)%float 180%float = nan /\
  haversine 3959 12 0 (-12) 180 = (3959 * Rtrigo1.PI)%R.
Proof.
  apply (calculateDistance_near_antipodal_in_binary64 Sample.math);
    try reflexivity.
  intros y. cbn. now destruct (PrimFloat.is_nan y).
Defined.

Lemma quote_near_antipodal_in_binary64_witness :
  Binary64.calculateShippingCost (Binary64.calculateDistance Sample.math 12%float 0%float (-12)%float 180%float)
    None = nan.
Proof.
  apply (quote_near_antipodal_in_binary64 Sample.math); try reflexivity.
  intros y. cbn. now destruct (PrimFloat.is_nan y).
Defined.

End Binary64Samples.
